(** * artifacter-template-engine: the substitution engine of [TemplateProcessor]

    A shallow embedding of [src/template.processor.ts]: the guard cascade and
    the descending walk of [run], [retrieveValueFromIterDec] and the static
    [evaluateBoolean], followed by the properties of the engine.

    Conventions of the embedding.
    - Text is [string]; offsets are [nat] (they come from regular-expression
      matches, so they are never negative).
    - A [Map<string, string>] is a [gmap string string]; [map.get] is lookup,
      [undefined] is [None].
    - The template parameters are an object read by property access
      ([Js.Object]): own properties first, inherited ones next.
    - [console.warn] is modelled by the list of warnings a call emits, in
      emission order; [throw] by the [Threw] constructor of [Result].
    - The processor object is passed explicitly; [run] hands back the
      processor it leaves behind together with what it logged and returned. *)

From Stdlib Require Import Ascii String.
From stdpp Require Import base option list strings gmap.

Set Default Proof Using "Type".

(** ** JavaScript string primitives *)

Module Js.

(** [s.substring(0, stop)]: the first [stop] characters, the whole string
    when [stop] exceeds its length. *)
Fixpoint substringTo (s : string) (stop : nat) : string :=
  match stop, s with
  | 0, _ => ""
  | S _, EmptyString => ""
  | S stop', String ch rest => String ch (substringTo rest stop')
  end.

(** [s.substring(start)]: everything from offset [start] on, the empty
    string when [start] exceeds the length. *)
Fixpoint substringFrom (s : string) (start : nat) : string :=
  match start, s with
  | 0, _ => s
  | S _, EmptyString => ""
  | S start', String _ rest => substringFrom rest start'
  end.

(** [s.substring(start, stop)] for [start <= stop]. *)
Definition substring (s : string) (start stop : nat) : string :=
  substringTo (substringFrom s start) (stop - start).

Definition lowerChar (ch : ascii) : ascii :=
  let n := nat_of_ascii ch in
  if (65 <=? n) && (n <=? 90) then ascii_of_nat (n + 32) else ch.

(** [s.toLowerCase()] on the ASCII letters.  No character outside ASCII
    lowers to one of the letters of "true" or to "1", so for the
    comparisons made by [evaluateBoolean] this agrees with the Unicode
    operation. *)
Fixpoint toLowerCase (s : string) : string :=
  match s with
  | EmptyString => ""
  | String ch rest => String (lowerChar ch) (toLowerCase rest)
  end.

(** Truthiness of a string value: [undefined] and [""] are falsy. *)
Definition truthy (v : option string) : bool :=
  match v with
  | None => false
  | Some s => negb (bool_decide (s = ""))
  end.

(** An object read by property access, [object[name]].  [own] holds the
    properties the object was built with; [inherited] those found further up
    its prototype chain, which property access reaches just the same.  A
    value is represented by the text string concatenation writes for it, and
    an own property holding [null] or [undefined] by [None]: the test
    [== null] cannot tell the two apart. *)
Record Object : Type := {
  own : gmap string (option string);
  inherited : gmap string string
}.

(** [object[name]]: the own property if there is one, else the inherited
    one; [None] when the access gives [null] or [undefined]. *)
Definition getProperty (object : Object) (name : string) : option string :=
  match own object !! name with
  | Some value => value
  | None => inherited object !! name
  end.

(** Some of what every ordinary object inherits from [Object.prototype],
    with the text a usual engine writes for it. *)
Definition objectPrototype : gmap string string :=
  {[ "constructor" := "function Object() { [native code] }";
     "toString" := "function toString() { [native code] }";
     "toLocaleString" := "function toLocaleString() { [native code] }";
     "valueOf" := "function valueOf() { [native code] }";
     "hasOwnProperty" := "function hasOwnProperty() { [native code] }";
     "isPrototypeOf" := "function isPrototypeOf() { [native code] }";
     "propertyIsEnumerable" := "function propertyIsEnumerable() { [native code] }";
     "__proto__" := "[object Object]" ]}.

(** The object literal with the given string entries. *)
Definition object (entries : gmap string string) : Object :=
  {| own := Some <$> entries; inherited := objectPrototype |}.

End Js.

(** ** Errors and warnings *)

Inductive Error : Type :=
  | TemplateInvalid
      (* new Error(TemplateContainer.msgTmplInvalid) *)
  | EmptyMap
      (* "Invalid Values Map: map is empty" *)
  | NoTemplateParameters
      (* "Invalid Processor state: found Parameterized Expression, ..." *)
  | InvalidExpression (expression : string)
      (* "Invalid expression '...' found trying to evaluate a boolean" *)
  | FunctionNotFound (name : string)
      (* raised by the pipe and template function processors *)
  | UndefinedAccess.
      (* TypeError: property read on [undefined] *)

Inductive ErrorKind : Type :=
  | ConfigurationError | InputError | StateError | ResolutionError | RuntimeError.

Definition errorKind (e : Error) : ErrorKind :=
  match e with
  | TemplateInvalid => ConfigurationError
  | EmptyMap => InputError
  | NoTemplateParameters => StateError
  | InvalidExpression _ => InputError
  | FunctionNotFound _ => ResolutionError
  | UndefinedAccess => RuntimeError
  end.

Inductive Result (A : Type) : Type :=
  | Ok (a : A)
  | Threw (e : Error).
Arguments Ok {A} a.
Arguments Threw {A} e.

Definition returned {A} (r : Result A) : bool :=
  match r with Ok _ => true | Threw _ => false end.

(** The two [console.warn] calls of [run]; each names the key and the
    template's file name. *)
Inductive Warning : Type :=
  | MissingParameter (name filename : string)
  | MissingKey (key filename : string).

Global Instance Error_eq_dec : EqDecision Error.
Proof. solve_decision. Defined.
Global Instance Warning_eq_dec : EqDecision Warning.
Proof. solve_decision. Defined.

(** ** Parsed records *)

Module MappedExpression.

(** One occurrence of a mapped expression.  [ternaryFalse] is [None] when no
    false branch was declared and [pipeFunctions] is [None] when the
    expression carries no pipe chain (both are [undefined] in that case). *)
Record t : Type := {
  mappedKey : string;
  isOptional : bool;
  isNegated : bool;
  isTernary : bool;
  ternaryTrue : string;
  ternaryFalse : option string;
  pipeFunctions : option (list string);
  isIterated : bool;
  isParameterized : bool;
  startIndex : nat;
  endIndex : nat
}.

Global Instance eq_dec : EqDecision t.
Proof. solve_decision. Defined.

End MappedExpression.

Module DeclaredIteration.

Record t : Type := {
  mappedKey : string;
  mappedFunction : string
}.

End DeclaredIteration.

Module TemplateContainer.

Record t : Type := {
  filename : string;
  fileContents : string;
  mapExprList : list MappedExpression.t;
  iterDecList : list DeclaredIteration.t;
  invalid : bool;
  skip : bool;
  optionalityByDefault : bool
}.

End TemplateContainer.

(** ** Function processors *)

Module PipeFunctionsProcessor.

(** Modelled from the spec: the registry of pipe functions
    ([pipe-functions.processor.ts] is not part of the sources at hand).
    A pipe function is a unary transform of strings; the processor holds the
    caller-supplied functions and the built-in ones. *)
Record t : Type := {
  custom : gmap string (string -> string);
  builtin : gmap string (string -> string)
}.

(** Modelled from the spec: name resolution prefers a caller-supplied
    registration over a built-in one. *)
Definition resolve (p : t) (name : string) : option (string -> string) :=
  match custom p !! name with
  | Some f => Some f
  | None => builtin p !! name
  end.

(** Modelled from the spec: [PipeFunctionsProcessor.invoke] applies the named
    chain to a value, in declared order, every transform consuming the output
    of the one before it; a name with no registered implementation is a
    lookup error naming that function. *)
Fixpoint invoke (p : t) (names : list string) (value : string) : Result string :=
  match names with
  | [] => Ok value
  | name :: rest =>
      match resolve p name with
      | None => Threw (FunctionNotFound name)
      | Some f => invoke p rest (f value)
      end
  end.

End PipeFunctionsProcessor.

Module TemplateFunctionsProcessor.

(** Modelled from the spec: the registry of template functions
    ([template-functions.processor.ts] is not part of the sources at hand).
    A template function takes no argument and produces the substitution
    text, so it is represented by the text it produces. *)
Record t : Type := {
  custom : gmap string string;
  builtin : gmap string string
}.

(** Modelled from the spec: [TemplateFunctionsProcessor.invoke] resolves the
    name, caller-supplied first, and calls the function; an unknown name is a
    lookup error. *)
Definition invoke (p : t) (name : string) : Result string :=
  match custom p !! name with
  | Some text => Ok text
  | None =>
      match builtin p !! name with
      | Some text => Ok text
      | None => Threw (FunctionNotFound name)
      end
  end.

End TemplateFunctionsProcessor.

(** ** What the engine takes from outside its source file *)

(** The pieces [template.processor.ts] imports that the embedding leaves
    open: how [StringContainer.replaceRange] writes a replacement that is
    [undefined], and the two regular expressions of the grammar. *)
Class Environment : Type := {
  (** the text written in place of an [undefined] replacement *)
  undefinedText : string;
  (** [text.replace(new RegExp(DeclaredIteration.regex), "")]: the cleanup
      of declared-iteration markers *)
  removeIterDec : string -> string;
  (** [new RegExp(MappedExpression.regex).exec(expression)] followed by
      [new MappedExpression(result)]; [None] when the pattern finds no match,
      which is when [lastIndex] is still 0 after [exec] *)
  execMappedExpression : string -> option MappedExpression.t
}.

Module StringContainer.

(** The container wraps one string; the processor builds a fresh one from
    the template text at the start of every run. *)
Definition t : Type := string.

Definition new (initial : string) : t := initial.

(** Modelled from the spec: [replaceRange(start, end, replacement)] rewrites
    the half-open range [start, end) of the held text with the replacement
    ([StringContainer] comes from the package [@artifacter/common]). *)
Definition replaceRange {env : Environment} (c : t) (start stop : nat)
    (replacement : option string) : t :=
  Js.substringTo c start +:+ default undefinedText replacement
    +:+ Js.substringFrom c stop.

(** [replace(iterDecRegex, "")] *)
Definition replaceIterDec {env : Environment} (c : t) : t := removeIterDec c.

Definition toString (c : t) : string := c.

End StringContainer.

(** ** The processor *)

Module TemplateProcessor.

Record t : Type := {
  atmplContainer : TemplateContainer.t;
  (** [None] while no parameters are set ([undefined], or [null]) *)
  templateParameters : option Js.Object;
  pipeFunctionsProcessor : PipeFunctionsProcessor.t;
  tmplFunctionsProcessor : TemplateFunctionsProcessor.t
}.

(** What a call of [run] leaves behind: the processor after the call, the
    warnings logged, and the returned string or the error thrown. *)
Record Outcome : Type := {
  after : t;
  console : list Warning;
  completion : Result string
}.

Definition setTemplateParameters (this : t)
    (templateParameters : option Js.Object) : t :=
  {| atmplContainer := atmplContainer this;
     templateParameters := templateParameters;
     pipeFunctionsProcessor := pipeFunctionsProcessor this;
     tmplFunctionsProcessor := tmplFunctionsProcessor this |}.

(** The [forEach] of [retrieveValueFromIterDec]: the [return] inside the
    callback only ends that callback, so every record is visited and a later
    match overwrites [result]. *)
Fixpoint forEachIterDec (this : t) (mappedKey : string)
    (iterDecs : list DeclaredIteration.t) (result : option string)
    : Result (option string) :=
  match iterDecs with
  | [] => Ok result
  | iterDec :: rest =>
      if bool_decide (DeclaredIteration.mappedKey iterDec = mappedKey) then
        match TemplateFunctionsProcessor.invoke (tmplFunctionsProcessor this)
                (DeclaredIteration.mappedFunction iterDec) with
        | Threw e => Threw e
        | Ok text => forEachIterDec this mappedKey rest (Some text)
        end
      else forEachIterDec this mappedKey rest result
  end.

Definition retrieveValueFromIterDec (this : t) (mappedKey : string)
    : Result (option string) :=
  forEachIterDec this mappedKey
    (TemplateContainer.iterDecList (atmplContainer this)) None.

(** The body of the [for] loop of [run] for one record: the warnings it
    logs and the working text it leaves, or the error it throws. *)
Definition processExpr {env : Environment} (this : t) (map : gmap string string)
    (mapExpr : MappedExpression.t) (workingResult : StringContainer.t)
    : list Warning * Result StringContainer.t :=
  let container := atmplContainer this in
  let key := MappedExpression.mappedKey mapExpr in
  let startIndex := MappedExpression.startIndex mapExpr in
  let endIndex := MappedExpression.endIndex mapExpr in
  if MappedExpression.isIterated mapExpr then
    match retrieveValueFromIterDec this key with
    | Threw e => ([], Threw e)
    | Ok value =>
        ([], Ok (StringContainer.replaceRange workingResult startIndex endIndex value))
    end
  else if MappedExpression.isParameterized mapExpr then
    match templateParameters this with
    | None => ([], Threw NoTemplateParameters)
    | Some parameters =>
        match Js.getProperty parameters key with
        | None =>
            ([MissingParameter key (TemplateContainer.filename container)],
             Ok workingResult)
        | Some value =>
            ([], Ok (StringContainer.replaceRange workingResult startIndex endIndex
                       (Some value)))
        end
    end
  else
    match map !! key with
    | None =>
        if negb (MappedExpression.isOptional mapExpr)
           && negb (TemplateContainer.optionalityByDefault container)
        then
          ([MissingKey key (TemplateContainer.filename container)],
           Ok workingResult)
        else
          (* mappedValue == undefined && (isOptional || optionalityByDefault):
             holds whenever the test above fails on an undefined value *)
          ([], Ok (StringContainer.replaceRange workingResult startIndex endIndex
                     (Some "")))
    | Some mappedValue =>
        let mappedValue :=
          if MappedExpression.isTernary mapExpr then
            if negb (bool_decide (mappedValue = "")) then
              MappedExpression.ternaryTrue mapExpr
            else
              match MappedExpression.ternaryFalse mapExpr with
              | Some ternaryFalse =>
                  if Js.truthy (Some ternaryFalse) then ternaryFalse else ""
              | None => ""
              end
          else mappedValue in
        let piped :=
          match MappedExpression.pipeFunctions mapExpr with
          | Some (name :: names) =>
              PipeFunctionsProcessor.invoke (pipeFunctionsProcessor this)
                (name :: names) mappedValue
          | _ => Ok mappedValue
          end in
        match piped with
        | Threw e => ([], Threw e)
        | Ok mappedValue =>
            ([], Ok (StringContainer.replaceRange workingResult startIndex endIndex
                       (Some mappedValue)))
        end
    end.

(** The [for] loop of [run]: [count] is [index + 1], so the loop starts at
    [count = mapExprList.length] and stops when [index] would drop below 0. *)
Fixpoint runLoop {env : Environment} (this : t) (map : gmap string string)
    (count : nat) (logged : list Warning) (workingResult : StringContainer.t)
    : list Warning * Result StringContainer.t :=
  match count with
  | 0 => (logged, Ok workingResult)
  | S index =>
      match TemplateContainer.mapExprList (atmplContainer this) !! index with
      | None => (logged, Threw UndefinedAccess)
      | Some mapExpr =>
          match processExpr this map mapExpr workingResult with
          | (warnings, Threw e) => (logged ++ warnings, Threw e)
          | (warnings, Ok workingResult') =>
              runLoop this map index (logged ++ warnings) workingResult'
          end
      end
  end.

(** [run(map)].  The three guards, the loop over a working copy, the
    cleanup of declared-iteration markers.  The working copy is a new
    [StringContainer] built from the string [fileContents]; the method
    assigns to no field of the processor or of its container, so the
    processor handed back is [this] on every path. *)
Definition run {env : Environment} (this : t) (map : gmap string string) : Outcome :=
  let container := atmplContainer this in
  if TemplateContainer.skip container then
    {| after := this; console := [];
       completion := Ok (TemplateContainer.fileContents container) |}
  else if TemplateContainer.invalid container then
    {| after := this; console := []; completion := Threw TemplateInvalid |}
  else if bool_decide (size map = 0) then
    {| after := this; console := []; completion := Threw EmptyMap |}
  else
    let workingResult :=
      StringContainer.new (TemplateContainer.fileContents container) in
    match runLoop this map
            (length (TemplateContainer.mapExprList container)) [] workingResult with
    | (logged, Threw e) =>
        {| after := this; console := logged; completion := Threw e |}
    | (logged, Ok workingResult) =>
        {| after := this; console := logged;
           completion :=
             Ok (StringContainer.toString
                   (StringContainer.replaceIterDec workingResult)) |}
    end.

(** [value.toLowerCase() == "true" || value.toLowerCase() == "1"] *)
Definition isTrueText (value : string) : bool :=
  bool_decide (Js.toLowerCase value = "true")
  || bool_decide (Js.toLowerCase value = "1").

(** The static [evaluateBoolean(expression, map)]: the throw on
    [lastIndex == 0], the lookup, and the [if (value)] test, which an
    [undefined] value and the empty string both fail. *)
Definition evaluateBoolean {env : Environment} (expression : string)
    (map : gmap string string) : Result bool :=
  match execMappedExpression expression with
  | None => Threw (InvalidExpression expression)
  | Some expr =>
      let value := map !! MappedExpression.mappedKey expr in
      match value with
      | Some text =>
          if Js.truthy value then
            if MappedExpression.isNegated expr
            then Ok (negb (isTrueText text))
            else Ok (isTrueText text)
          else Ok false
      | None => Ok false
      end
  end.

End TemplateProcessor.

(** ** The single-pass reading of a run

    The description of the engine against which the descending walk is
    compared: every replacement is computed on its own, without looking at
    the working text, and all of them are spliced into the original text in
    one left-to-right pass. *)

Module SinglePass.

(** What a record asks for: leave its range as it is, or rewrite it. *)
Inductive Edit : Type :=
  | Keep
  | Rewrite (replacement : option string).

(** The replacement a record computes, with no working text in sight.  The
    two branches that only warn ask for [Keep]; every other branch that
    does not throw asks for a [Rewrite]. *)
Definition replacementFor (this : TemplateProcessor.t) (map : gmap string string)
    (mapExpr : MappedExpression.t) : list Warning * Result Edit :=
  let container := TemplateProcessor.atmplContainer this in
  let key := MappedExpression.mappedKey mapExpr in
  if MappedExpression.isIterated mapExpr then
    match TemplateProcessor.retrieveValueFromIterDec this key with
    | Threw e => ([], Threw e)
    | Ok value => ([], Ok (Rewrite value))
    end
  else if MappedExpression.isParameterized mapExpr then
    match TemplateProcessor.templateParameters this with
    | None => ([], Threw NoTemplateParameters)
    | Some parameters =>
        match Js.getProperty parameters key with
        | None =>
            ([MissingParameter key (TemplateContainer.filename container)], Ok Keep)
        | Some value => ([], Ok (Rewrite (Some value)))
        end
    end
  else
    match map !! key with
    | None =>
        if MappedExpression.isOptional mapExpr
           || TemplateContainer.optionalityByDefault container
        then ([], Ok (Rewrite (Some "")))
        else ([MissingKey key (TemplateContainer.filename container)], Ok Keep)
    | Some value =>
        let chosen :=
          if MappedExpression.isTernary mapExpr then
            if bool_decide (value = "")
            then default "" (MappedExpression.ternaryFalse mapExpr)
            else MappedExpression.ternaryTrue mapExpr
          else value in
        match PipeFunctionsProcessor.invoke
                (TemplateProcessor.pipeFunctionsProcessor this)
                (default [] (MappedExpression.pipeFunctions mapExpr)) chosen with
        | Threw e => ([], Threw e)
        | Ok final => ([], Ok (Rewrite (Some final)))
        end
    end.

(** All replacements, computed in the order given; the first fatal one ends
    the computation. *)
Fixpoint resolveAll (this : TemplateProcessor.t) (map : gmap string string)
    (exprs : list MappedExpression.t)
    : list Warning * Result (list (MappedExpression.t * Edit)) :=
  match exprs with
  | [] => ([], Ok [])
  | mapExpr :: rest =>
      match replacementFor this map mapExpr with
      | (warnings, Threw e) => (warnings, Threw e)
      | (warnings, Ok edit) =>
          match resolveAll this map rest with
          | (warnings', Threw e) => (warnings ++ warnings', Threw e)
          | (warnings', Ok edits) =>
              (warnings ++ warnings', Ok ((mapExpr, edit) :: edits))
          end
      end
  end.

(** One pass over the original text from [position] on: the text between
    the edits is copied, every rewritten range gives way to its
    replacement.  The edits come in ascending order of offset. *)
Fixpoint splice {env : Environment} (original : string) (position : nat)
    (edits : list (MappedExpression.t * Edit)) : string :=
  match edits with
  | [] => Js.substringFrom original position
  | (_, Keep) :: rest => splice original position rest
  | (mapExpr, Rewrite replacement) :: rest =>
      Js.substring original position (MappedExpression.startIndex mapExpr)
        +:+ default undefinedText replacement
        +:+ splice original (MappedExpression.endIndex mapExpr) rest
  end.

(** The run, read as: guards, all replacements (resolved highest offset
    first, which fixes the order of the warnings and which error comes
    first), one splice of the original text, cleanup. *)
Definition run {env : Environment} (this : TemplateProcessor.t)
    (map : gmap string string) : TemplateProcessor.Outcome :=
  let container := TemplateProcessor.atmplContainer this in
  let original := TemplateContainer.fileContents container in
  if TemplateContainer.skip container then
    {| TemplateProcessor.after := this; TemplateProcessor.console := [];
       TemplateProcessor.completion := Ok original |}
  else if TemplateContainer.invalid container then
    {| TemplateProcessor.after := this; TemplateProcessor.console := [];
       TemplateProcessor.completion := Threw TemplateInvalid |}
  else if bool_decide (map = ∅) then
    {| TemplateProcessor.after := this; TemplateProcessor.console := [];
       TemplateProcessor.completion := Threw EmptyMap |}
  else
    match resolveAll this map (reverse (TemplateContainer.mapExprList container)) with
    | (warnings, Threw e) =>
        {| TemplateProcessor.after := this; TemplateProcessor.console := warnings;
           TemplateProcessor.completion := Threw e |}
    | (warnings, Ok edits) =>
        {| TemplateProcessor.after := this; TemplateProcessor.console := warnings;
           TemplateProcessor.completion :=
             Ok (removeIterDec (splice original 0 (reverse edits))) |}
    end.

End SinglePass.

(** ** Ranges of a parsed template *)

(** Two half-open ranges that share no offset. *)
Definition disjointRanges (a b : MappedExpression.t) : bool :=
  (MappedExpression.endIndex a <=? MappedExpression.startIndex b)
  || (MappedExpression.endIndex b <=? MappedExpression.startIndex a).

(** The records are in ascending order of [startIndex], every range is a
    non-empty range of a text of length [limit] (a match of the grammar is
    never empty), and no two ranges overlap. *)
Fixpoint ascendingDisjoint (limit : nat) (exprs : list MappedExpression.t) : bool :=
  match exprs with
  | [] => true
  | mapExpr :: rest =>
      (MappedExpression.startIndex mapExpr <? MappedExpression.endIndex mapExpr)
      && (MappedExpression.endIndex mapExpr <=? limit)
      && forallb (fun later =>
            (MappedExpression.startIndex mapExpr <=? MappedExpression.startIndex later)
            && disjointRanges mapExpr later) rest
      && ascendingDisjoint limit rest
  end.

(** The same, as the chain of inequalities the splice follows: from
    [position] on, each range starts no earlier than the previous one ended
    and ends inside the text. *)
Fixpoint chained (position limit : nat) (exprs : list MappedExpression.t) : Prop :=
  match exprs with
  | [] => True
  | mapExpr :: rest =>
      position <= MappedExpression.startIndex mapExpr
      /\ MappedExpression.startIndex mapExpr <= MappedExpression.endIndex mapExpr
      /\ MappedExpression.endIndex mapExpr <= limit
      /\ chained (MappedExpression.endIndex mapExpr) limit rest
  end.

(** ** Reading the console *)

Definition isMissingKey (key : string) (w : Warning) : bool :=
  match w with
  | MissingKey k _ => bool_decide (k = key)
  | MissingParameter _ _ => false
  end.

Definition isMissingParameter (name : string) (w : Warning) : bool :=
  match w with
  | MissingParameter n _ => bool_decide (n = name)
  | MissingKey _ _ => false
  end.

(** How many warnings in [logged] satisfy [test]. *)
Definition countWarnings (test : Warning -> bool) (logged : list Warning) : nat :=
  length (filter (fun w => test w = true) logged).

(** ** Kinds of record *)

Definition isPlain (mapExpr : MappedExpression.t) : bool :=
  negb (MappedExpression.isIterated mapExpr)
  && negb (MappedExpression.isParameterized mapExpr).

(** A record that reaches the parameterized branch of the walk. *)
Definition reachesParameters (mapExpr : MappedExpression.t) : bool :=
  negb (MappedExpression.isIterated mapExpr)
  && MappedExpression.isParameterized mapExpr.

(** ** Example templates

    Parsed containers written out by hand, used to run the definitions on
    concrete inputs.  The placeholder texts only illustrate: a container
    holds the records and offsets, not the grammar. *)

Module Examples.

(** A template without declared-iteration markers, so the cleanup finds
    nothing to strip; an [undefined] replacement is written the way string
    concatenation writes it; a standalone expression is a key with an
    optional leading ["!"] for negation. *)
Definition expression (key : string) (negated : bool) : MappedExpression.t :=
  {| MappedExpression.mappedKey := key;
     MappedExpression.isOptional := false;
     MappedExpression.isNegated := negated;
     MappedExpression.isTernary := false;
     MappedExpression.ternaryTrue := EmptyString;
     MappedExpression.ternaryFalse := None;
     MappedExpression.pipeFunctions := None;
     MappedExpression.isIterated := false;
     MappedExpression.isParameterized := false;
     MappedExpression.startIndex := 0;
     MappedExpression.endIndex := String.length key |}.

Definition exec (expression_text : string) : option MappedExpression.t :=
  match expression_text with
  | EmptyString => None
  | String "!" EmptyString => None
  | String "!" key => Some (expression key true)
  | key => Some (expression key false)
  end.

Definition environment : Environment :=
  {| undefinedText := "undefined";
     removeIterDec := fun text => text;
     execMappedExpression := exec |}.

(** A plain record for [key] over the range [start, stop). *)
Definition plain (key : string) (optional : bool) (start stop : nat)
    : MappedExpression.t :=
  {| MappedExpression.mappedKey := key;
     MappedExpression.isOptional := optional;
     MappedExpression.isNegated := false;
     MappedExpression.isTernary := false;
     MappedExpression.ternaryTrue := EmptyString;
     MappedExpression.ternaryFalse := None;
     MappedExpression.pipeFunctions := None;
     MappedExpression.isIterated := false;
     MappedExpression.isParameterized := false;
     MappedExpression.startIndex := start;
     MappedExpression.endIndex := stop |}.

Definition piped (key : string) (names : list string) (start stop : nat)
    : MappedExpression.t :=
  {| MappedExpression.mappedKey := key;
     MappedExpression.isOptional := false;
     MappedExpression.isNegated := false;
     MappedExpression.isTernary := false;
     MappedExpression.ternaryTrue := EmptyString;
     MappedExpression.ternaryFalse := None;
     MappedExpression.pipeFunctions := Some names;
     MappedExpression.isIterated := false;
     MappedExpression.isParameterized := false;
     MappedExpression.startIndex := start;
     MappedExpression.endIndex := stop |}.

Definition ternary (key yes : string) (no : option string)
    (names : list string) (start stop : nat) : MappedExpression.t :=
  {| MappedExpression.mappedKey := key;
     MappedExpression.isOptional := false;
     MappedExpression.isNegated := false;
     MappedExpression.isTernary := true;
     MappedExpression.ternaryTrue := yes;
     MappedExpression.ternaryFalse := no;
     MappedExpression.pipeFunctions := Some names;
     MappedExpression.isIterated := false;
     MappedExpression.isParameterized := false;
     MappedExpression.startIndex := start;
     MappedExpression.endIndex := stop |}.

Definition parameterized (name : string) (start stop : nat) : MappedExpression.t :=
  {| MappedExpression.mappedKey := name;
     MappedExpression.isOptional := false;
     MappedExpression.isNegated := false;
     MappedExpression.isTernary := false;
     MappedExpression.ternaryTrue := EmptyString;
     MappedExpression.ternaryFalse := None;
     MappedExpression.pipeFunctions := None;
     MappedExpression.isIterated := false;
     MappedExpression.isParameterized := true;
     MappedExpression.startIndex := start;
     MappedExpression.endIndex := stop |}.

Definition iterated (key : string) (start stop : nat) : MappedExpression.t :=
  {| MappedExpression.mappedKey := key;
     MappedExpression.isOptional := false;
     MappedExpression.isNegated := false;
     MappedExpression.isTernary := false;
     MappedExpression.ternaryTrue := EmptyString;
     MappedExpression.ternaryFalse := None;
     MappedExpression.pipeFunctions := None;
     MappedExpression.isIterated := true;
     MappedExpression.isParameterized := false;
     MappedExpression.startIndex := start;
     MappedExpression.endIndex := stop |}.

Definition container (text : string) (exprs : list MappedExpression.t)
    (iterDecs : list DeclaredIteration.t) (optionalByDefault : bool)
    : TemplateContainer.t :=
  {| TemplateContainer.filename := "example.atmpl";
     TemplateContainer.fileContents := text;
     TemplateContainer.mapExprList := exprs;
     TemplateContainer.iterDecList := iterDecs;
     TemplateContainer.invalid := false;
     TemplateContainer.skip := false;
     TemplateContainer.optionalityByDefault := optionalByDefault |}.

(** The custom functions of the repository's own trial run: [doSomething]
    appends a suffix, [doOther] produces a fixed text. *)
Definition pipes : PipeFunctionsProcessor.t :=
  {| PipeFunctionsProcessor.custom :=
       {[ "doSomething" := fun str : string => str +:+ "ASDF!!!" ]};
     PipeFunctionsProcessor.builtin :=
       {[ "bang" := fun str : string => str +:+ "!" ]} |}.

Definition generators : TemplateFunctionsProcessor.t :=
  {| TemplateFunctionsProcessor.custom := {[ "doOther" := "LALALA" ]};
     TemplateFunctionsProcessor.builtin := ∅ |}.

Definition processor (c : TemplateContainer.t) : TemplateProcessor.t :=
  {| TemplateProcessor.atmplContainer := c;
     TemplateProcessor.templateParameters := None;
     TemplateProcessor.pipeFunctionsProcessor := pipes;
     TemplateProcessor.tmplFunctionsProcessor := generators |}.

(** ["Hello &{name}, you are &{age}!"]: [name] at [6, 13), [age] at [23, 29). *)
Definition greeting (ageOptional optionalByDefault : bool) : TemplateContainer.t :=
  container "Hello &{name}, you are &{age}!"
    [plain "name" false 6 13; plain "age" ageOptional 23 29] [] optionalByDefault.

(** ["env=&{#env};svc=&{name}"]: the parameter [env] at [4, 11), the key
    [name] at [16, 23). *)
Definition service : TemplateContainer.t :=
  container "env=&{#env};svc=&{name}"
    [parameterized "env" 4 11; plain "name" false 16 23] [] false.

(** ["env=&{#env};svc=&{name}(shout)"]: as above, with the key piped through
    a function nobody registered. *)
Definition shouting : TemplateContainer.t :=
  container "env=&{#env};svc=&{name}(shout)"
    [parameterized "env" 4 11; piped "name" ["shout"] 16 30] [] false.


(** ["kind: &{flag ? on : off}(doSomething,bang)"]: a ternary with a chain
    of two pipe functions, at [6, 42). *)
Definition switch : TemplateContainer.t :=
  container "kind: &{flag ? on : off}(doSomething,bang)"
    [ternary "flag" "on" (Some "off") ["doSomething"; "bang"] 6 42] [] false.

(** A text without expressions, flagged as a passthrough; its invalid flag
    is set as well, to show that the skip test comes first. *)
Definition passthrough : TemplateContainer.t :=
  {| TemplateContainer.filename := "plain.txt";
     TemplateContainer.fileContents := "no expressions here";
     TemplateContainer.mapExprList := [];
     TemplateContainer.iterDecList := [];
     TemplateContainer.invalid := true;
     TemplateContainer.skip := true;
     TemplateContainer.optionalityByDefault := false |}.

(** A template the scan gave up on. *)
Definition broken : TemplateContainer.t :=
  {| TemplateContainer.filename := "broken.atmpl";
     TemplateContainer.fileContents := "Hello &{name";
     TemplateContainer.mapExprList := [];
     TemplateContainer.iterDecList := [];
     TemplateContainer.invalid := true;
     TemplateContainer.skip := false;
     TemplateContainer.optionalityByDefault := false |}.

(** The service template with parameters set, none of them named [env]. *)
Definition configured : TemplateProcessor.t :=
  TemplateProcessor.setTemplateParameters (processor service)
    (Some (Js.object {[ "region" := "eu" ]})).

Definition ada : gmap string string := {[ "name" := "Ada" ]}.
Definition adaLovelace : gmap string string := {[ "name" := "Ada"; "age" := "37" ]}.

End Examples.

(** ** Records one at a time *)

(** The record resolves without a fatal error. *)
Definition resolves (this : TemplateProcessor.t) (map : gmap string string)
    (mapExpr : MappedExpression.t) : bool :=
  returned (SinglePass.replacementFor this map mapExpr).2.

(** The warnings the record logs when the walk reaches it. *)
Definition warningsOf (this : TemplateProcessor.t) (map : gmap string string)
    (mapExpr : MappedExpression.t) : list Warning :=
  (SinglePass.replacementFor this map mapExpr).1.

(** A plain, non-optional record for [key]: the kind that warns when the
    map lacks [key] and the container is not optional by default. *)
Definition requiresKey (key : string) (mapExpr : MappedExpression.t) : bool :=
  isPlain mapExpr
  && negb (MappedExpression.isOptional mapExpr)
  && bool_decide (MappedExpression.mappedKey mapExpr = key).

(** A record that reads the parameter [name]. *)
Definition readsParameter (name : string) (mapExpr : MappedExpression.t) : bool :=
  reachesParameters mapExpr
  && bool_decide (MappedExpression.mappedKey mapExpr = name).

(** The outcome is a thrown state error. *)
Definition throwsStateError (outcome : TemplateProcessor.Outcome) : Prop :=
  exists e, TemplateProcessor.completion outcome = Threw e
            /\ errorKind e = StateError.



(** ** The walk, edit by edit *)

Module Walk.

(** Carrying out one edit on a working text. *)
Definition applyEdit {env : Environment} (working : string)
    (mapExpr : MappedExpression.t) (edit : SinglePass.Edit) : string :=
  match edit with
  | SinglePass.Keep => working
  | SinglePass.Rewrite replacement =>
      StringContainer.replaceRange working
        (MappedExpression.startIndex mapExpr) (MappedExpression.endIndex mapExpr)
        replacement
  end.

(** The edits of a list carried out one after the other on the same
    working text, the last of the list first. *)
Fixpoint applyDescending {env : Environment}
    (edits : list (MappedExpression.t * SinglePass.Edit)) (working : string)
    : string :=
  match edits with
  | [] => working
  | (mapExpr, edit) :: rest => applyEdit (applyDescending rest working) mapExpr edit
  end.

(** The loop of [run] over an explicit list of records, visited in the
    order given. *)
Fixpoint visit {env : Environment} (this : TemplateProcessor.t)
    (map : gmap string string) (exprs : list MappedExpression.t)
    (logged : list Warning) (workingResult : StringContainer.t)
    : list Warning * Result StringContainer.t :=
  match exprs with
  | [] => (logged, Ok workingResult)
  | mapExpr :: rest =>
      match TemplateProcessor.processExpr this map mapExpr workingResult with
      | (warnings, Threw e) => (logged ++ warnings, Threw e)
      | (warnings, Ok workingResult') =>
          visit this map rest (logged ++ warnings) workingResult'
      end
  end.

End Walk.

(** ** The objects of a run in a store

    The same [run] with its objects in a store, to follow what a run
    writes.  The processor refers to its container by location; a container
    object holds its text as a string, which is a value ([run] returns
    [$fileContents] where a [string] is expected); [new StringContainer]
    allocates an object that holds a string of its own, and [replaceRange]
    and [replace] assign to the object they are called on. *)

Module Heap.

(** Locations of objects. *)
Abbreviation loc := positive.

Inductive Object : Type :=
  | ContainerObject (container : TemplateContainer.t)
  | StringContainerObject (held : string).

Record Processor : Type := {
  atmplContainer : loc;
  templateParameters : option Js.Object;
  pipeFunctionsProcessor : PipeFunctionsProcessor.t;
  tmplFunctionsProcessor : TemplateFunctionsProcessor.t
}.

(** The processor as the store-free embedding has it, for a container read
    from the store. *)
Definition view (this : Processor) (container : TemplateContainer.t)
    : TemplateProcessor.t :=
  {| TemplateProcessor.atmplContainer := container;
     TemplateProcessor.templateParameters := templateParameters this;
     TemplateProcessor.pipeFunctionsProcessor := pipeFunctionsProcessor this;
     TemplateProcessor.tmplFunctionsProcessor := tmplFunctionsProcessor this |}.

(** What a call of [run] leaves behind: the store after the call, the
    warnings logged, and the returned string or the error thrown. *)
Record Outcome : Type := {
  store : gmap loc Object;
  console : list Warning;
  completion : Result string
}.

(** [this.atmplContainer]: the object the reference leads to. *)
Definition readContainer (σ : gmap loc Object) (l : loc)
    : Result TemplateContainer.t :=
  match σ !! l with
  | Some (ContainerObject container) => Ok container
  | _ => Threw UndefinedAccess
  end.

(** [new StringContainer(initial)]: a new object, at a location the store
    does not use yet. *)
Definition newStringContainer (σ : gmap loc Object) (initial : string)
    : loc * gmap loc Object :=
  let l := fresh (dom σ) in
  (l, <[l := StringContainerObject (StringContainer.new initial)]> σ).

(** [l.replaceRange(start, end, replacement)]: the object at [l] gets its
    text rewritten. *)
Definition replaceRange {env : Environment} (σ : gmap loc Object) (l : loc)
    (start stop : nat) (replacement : option string)
    : Result (gmap loc Object) :=
  match σ !! l with
  | Some (StringContainerObject held) =>
      Ok (<[l := StringContainerObject
                   (StringContainer.replaceRange held start stop replacement)]> σ)
  | _ => Threw UndefinedAccess
  end.

(** [l.replace(iterDecRegex, "")] *)
Definition replaceIterDec {env : Environment} (σ : gmap loc Object) (l : loc)
    : Result (gmap loc Object) :=
  match σ !! l with
  | Some (StringContainerObject held) =>
      Ok (<[l := StringContainerObject (StringContainer.replaceIterDec held)]> σ)
  | _ => Threw UndefinedAccess
  end.

(** [l.toString()] *)
Definition toString (σ : gmap loc Object) (l : loc) : Result string :=
  match σ !! l with
  | Some (StringContainerObject held) => Ok (StringContainer.toString held)
  | _ => Threw UndefinedAccess
  end.

(** The body of the [for] loop for one record, on the working object at
    [workingResult]. *)
Definition processExpr {env : Environment} (σ : gmap loc Object) (this : Processor)
    (map : gmap string string) (mapExpr : MappedExpression.t) (workingResult : loc)
    : gmap loc Object * list Warning * Result unit :=
  match readContainer σ (atmplContainer this) with
  | Threw e => (σ, [], Threw e)
  | Ok container =>
      let key := MappedExpression.mappedKey mapExpr in
      let startIndex := MappedExpression.startIndex mapExpr in
      let endIndex := MappedExpression.endIndex mapExpr in
      let assign := fun replacement =>
        match replaceRange σ workingResult startIndex endIndex replacement with
        | Threw e => (σ, [], Threw e)
        | Ok σ' => (σ', [], Ok tt)
        end in
      if MappedExpression.isIterated mapExpr then
        match TemplateProcessor.retrieveValueFromIterDec (view this container) key with
        | Threw e => (σ, [], Threw e)
        | Ok value => assign value
        end
      else if MappedExpression.isParameterized mapExpr then
        match templateParameters this with
        | None => (σ, [], Threw NoTemplateParameters)
        | Some parameters =>
            match Js.getProperty parameters key with
            | None =>
                (σ, [MissingParameter key (TemplateContainer.filename container)],
                 Ok tt)
            | Some value => assign (Some value)
            end
        end
      else
        match map !! key with
        | None =>
            if negb (MappedExpression.isOptional mapExpr)
               && negb (TemplateContainer.optionalityByDefault container)
            then
              (σ, [MissingKey key (TemplateContainer.filename container)], Ok tt)
            else assign (Some "")
        | Some mappedValue =>
            let mappedValue :=
              if MappedExpression.isTernary mapExpr then
                if negb (bool_decide (mappedValue = "")) then
                  MappedExpression.ternaryTrue mapExpr
                else
                  match MappedExpression.ternaryFalse mapExpr with
                  | Some ternaryFalse =>
                      if Js.truthy (Some ternaryFalse) then ternaryFalse else ""
                  | None => ""
                  end
              else mappedValue in
            let piped :=
              match MappedExpression.pipeFunctions mapExpr with
              | Some (name :: names) =>
                  PipeFunctionsProcessor.invoke (pipeFunctionsProcessor this)
                    (name :: names) mappedValue
              | _ => Ok mappedValue
              end in
            match piped with
            | Threw e => (σ, [], Threw e)
            | Ok mappedValue => assign (Some mappedValue)
            end
        end
  end.

(** The [for] loop, [count] being [index + 1]. *)
Fixpoint runLoop {env : Environment} (σ : gmap loc Object) (this : Processor)
    (map : gmap string string) (workingResult : loc) (count : nat)
    (logged : list Warning) : gmap loc Object * list Warning * Result unit :=
  match count with
  | 0 => (σ, logged, Ok tt)
  | S index =>
      match readContainer σ (atmplContainer this) with
      | Threw e => (σ, logged, Threw e)
      | Ok container =>
          match TemplateContainer.mapExprList container !! index with
          | None => (σ, logged, Threw UndefinedAccess)
          | Some mapExpr =>
              match processExpr σ this map mapExpr workingResult with
              | (σ', warnings, Threw e) => (σ', logged ++ warnings, Threw e)
              | (σ', warnings, Ok _) =>
                  runLoop σ' this map workingResult index (logged ++ warnings)
              end
          end
      end
  end.

Definition run {env : Environment} (σ : gmap loc Object) (this : Processor)
    (map : gmap string string) : Outcome :=
  match readContainer σ (atmplContainer this) with
  | Threw e => {| store := σ; console := []; completion := Threw e |}
  | Ok container =>
      if TemplateContainer.skip container then
        {| store := σ; console := [];
           completion := Ok (TemplateContainer.fileContents container) |}
      else if TemplateContainer.invalid container then
        {| store := σ; console := []; completion := Threw TemplateInvalid |}
      else if bool_decide (size map = 0) then
        {| store := σ; console := []; completion := Threw EmptyMap |}
      else
        let '(workingResult, σ) :=
          newStringContainer σ (TemplateContainer.fileContents container) in
        match runLoop σ this map workingResult
                (length (TemplateContainer.mapExprList container)) [] with
        | (σ, logged, Threw e) =>
            {| store := σ; console := logged; completion := Threw e |}
        | (σ, logged, Ok _) =>
            match replaceIterDec σ workingResult with
            | Threw e => {| store := σ; console := logged; completion := Threw e |}
            | Ok σ =>
                match toString σ workingResult with
                | Threw e =>
                    {| store := σ; console := logged; completion := Threw e |}
                | Ok text =>
                    {| store := σ; console := logged; completion := Ok text |}
                end
            end
        end
  end.

(** A store in which the processor's reference leads to [container] and
    the working object holds [held]. *)
Definition inRun (this : Processor) (container : TemplateContainer.t)
    (workingResult : loc) (σ : gmap loc Object) (held : string) : Prop :=
  σ !! atmplContainer this = Some (ContainerObject container)
  /\ σ !! workingResult = Some (StringContainerObject held).

(** The text the container at [l] holds, if there is one. *)
Definition fileContentsAt (σ : gmap loc Object) (l : loc) : option string :=
  match σ !! l with
  | Some (ContainerObject container) =>
      Some (TemplateContainer.fileContents container)
  | _ => None
  end.

End Heap.

(** ** More example templates *)

Module MoreExamples.

(** Template functions with a built-in [header] beside the custom
    [doOther]. *)
Definition generators : TemplateFunctionsProcessor.t :=
  {| TemplateFunctionsProcessor.custom := {[ "doOther" := "LALALA" ]};
     TemplateFunctionsProcessor.builtin := {[ "header" := "id;name" ]} |}.

Definition processor (c : TemplateContainer.t) : TemplateProcessor.t :=
  {| TemplateProcessor.atmplContainer := c;
     TemplateProcessor.templateParameters := None;
     TemplateProcessor.pipeFunctionsProcessor := Examples.pipes;
     TemplateProcessor.tmplFunctionsProcessor := generators |}.

(** A processor in a store, referring to its container at [l]. *)
Definition referring (l : Heap.loc) : Heap.Processor :=
  {| Heap.atmplContainer := l;
     Heap.templateParameters := None;
     Heap.pipeFunctionsProcessor := Examples.pipes;
     Heap.tmplFunctionsProcessor := Examples.generators |}.

(** ["rows: &{*rows}."] with two declared iterations for [rows]: the
    built-in [header] first, the custom [doOther] last. *)
Definition twice : TemplateContainer.t :=
  Examples.container "rows: &{*rows}."
    [Examples.iterated "rows" 6 14]
    [{| DeclaredIteration.mappedKey := "rows";
        DeclaredIteration.mappedFunction := "header" |};
     {| DeclaredIteration.mappedKey := "rows";
        DeclaredIteration.mappedFunction := "doOther" |}] false.

(** The same with a first declared iteration bound to a function nobody
    registered. *)
Definition stumbling : TemplateContainer.t :=
  Examples.container "rows: &{*rows}."
    [Examples.iterated "rows" 6 14]
    [{| DeclaredIteration.mappedKey := "rows";
        DeclaredIteration.mappedFunction := "missing" |};
     {| DeclaredIteration.mappedKey := "rows";
        DeclaredIteration.mappedFunction := "doOther" |}] false.

(** ["op=&{#toString};"]: a parameter named like a property every object
    inherits, at [3, 15). *)
Definition inheriting : TemplateContainer.t :=
  Examples.container "op=&{#toString};"
    [Examples.parameterized "toString" 3 15] [] false.

(** ["env=&{#env};"]: the parameter [env] alone, at [4, 11). *)
Definition banner : TemplateContainer.t :=
  Examples.container "env=&{#env};" [Examples.parameterized "env" 4 11] [] false.

(** ["kind: &{flag ? on : off}"]: a ternary without pipes, at [6, 24). *)
Definition toggleRecord : MappedExpression.t :=
  {| MappedExpression.mappedKey := "flag";
     MappedExpression.isOptional := false;
     MappedExpression.isNegated := false;
     MappedExpression.isTernary := true;
     MappedExpression.ternaryTrue := "on";
     MappedExpression.ternaryFalse := Some "off";
     MappedExpression.pipeFunctions := None;
     MappedExpression.isIterated := false;
     MappedExpression.isParameterized := false;
     MappedExpression.startIndex := 6;
     MappedExpression.endIndex := 24 |}.

Definition toggle : TemplateContainer.t :=
  Examples.container "kind: &{flag ? on : off}" [toggleRecord] [] false.

End MoreExamples.

(** ** Variations of a processor

    The same processor with one thing changed, for comparing runs. *)

Module Variation.

Definition withContainer (this : TemplateProcessor.t)
    (container : TemplateContainer.t) : TemplateProcessor.t :=
  {| TemplateProcessor.atmplContainer := container;
     TemplateProcessor.templateParameters :=
       TemplateProcessor.templateParameters this;
     TemplateProcessor.pipeFunctionsProcessor :=
       TemplateProcessor.pipeFunctionsProcessor this;
     TemplateProcessor.tmplFunctionsProcessor :=
       TemplateProcessor.tmplFunctionsProcessor this |}.

Definition withRecords (container : TemplateContainer.t)
    (exprs : list MappedExpression.t) (optionalByDefault : bool)
    : TemplateContainer.t :=
  {| TemplateContainer.filename := TemplateContainer.filename container;
     TemplateContainer.fileContents := TemplateContainer.fileContents container;
     TemplateContainer.mapExprList := exprs;
     TemplateContainer.iterDecList := TemplateContainer.iterDecList container;
     TemplateContainer.invalid := TemplateContainer.invalid container;
     TemplateContainer.skip := TemplateContainer.skip container;
     TemplateContainer.optionalityByDefault := optionalByDefault |}.

(** The record with its optional marker set. *)
Definition markOptional (mapExpr : MappedExpression.t) : MappedExpression.t :=
  {| MappedExpression.mappedKey := MappedExpression.mappedKey mapExpr;
     MappedExpression.isOptional := true;
     MappedExpression.isNegated := MappedExpression.isNegated mapExpr;
     MappedExpression.isTernary := MappedExpression.isTernary mapExpr;
     MappedExpression.ternaryTrue := MappedExpression.ternaryTrue mapExpr;
     MappedExpression.ternaryFalse := MappedExpression.ternaryFalse mapExpr;
     MappedExpression.pipeFunctions := MappedExpression.pipeFunctions mapExpr;
     MappedExpression.isIterated := MappedExpression.isIterated mapExpr;
     MappedExpression.isParameterized := MappedExpression.isParameterized mapExpr;
     MappedExpression.startIndex := MappedExpression.startIndex mapExpr;
     MappedExpression.endIndex := MappedExpression.endIndex mapExpr |}.

(** The container with another setting of optionality by default. *)
Definition withOptionalityByDefault (container : TemplateContainer.t)
    (optionalByDefault : bool) : TemplateContainer.t :=
  withRecords container (TemplateContainer.mapExprList container) optionalByDefault.

(** The container with every record marked optional and optionality by
    default switched off. *)
Definition allOptional (container : TemplateContainer.t) : TemplateContainer.t :=
  withRecords container
    (markOptional <$> TemplateContainer.mapExprList container) false.

End Variation.

(** What a caller sees of two runs is the same: the same warnings and the
    same returned string or thrown error. *)
Definition sameResult (a b : TemplateProcessor.Outcome) : Prop :=
  TemplateProcessor.console a = TemplateProcessor.console b
  /\ TemplateProcessor.completion a = TemplateProcessor.completion b.

(** * Properties *)

(** ** Strings *)

Section JsStrings.

Lemma app_nil_l (t : string) : "" +:+ t = t.
Proof. reflexivity. Qed.

Lemma app_cons (ch : ascii) (s t : string) :
  String ch s +:+ t = String ch (s +:+ t).
Proof. reflexivity. Qed.

Ltac unfold_app := rewrite ?app_cons, ?app_nil_l; simpl.

Lemma app_empty_r (s : string) : s +:+ "" = s.
Proof. induction s as [|ch s IH]; unfold_app; [done | by rewrite IH]. Qed.

Lemma app_assoc (s t u : string) : (s +:+ t) +:+ u = s +:+ t +:+ u.
Proof. induction s as [|ch s IH]; unfold_app; [done | by rewrite IH]. Qed.

Lemma substringTo_ge (s : string) (stop : nat) :
  String.length s <= stop -> Js.substringTo s stop = s.
Proof.
  revert stop. induction s as [|ch s IH]; intros [|stop] Hlen; simpl in *;
    try done; try lia.
  rewrite IH; [done | lia].
Qed.

Lemma length_substringTo (s : string) (stop : nat) :
  stop <= String.length s -> String.length (Js.substringTo s stop) = stop.
Proof.
  revert stop. induction s as [|ch s IH]; intros [|stop] Hlen; simpl in *;
    try done; try lia.
  rewrite IH; [done | lia].
Qed.

Lemma substringTo_app (s t : string) (stop : nat) :
  stop <= String.length s -> Js.substringTo (s +:+ t) stop = Js.substringTo s stop.
Proof.
  revert stop. induction s as [|ch s IH]; intros [|stop] Hlen; simpl in *;
    unfold_app; try done; try lia.
  - by destruct t.
  - rewrite IH; [done | lia].
Qed.

Lemma substringFrom_app (s t : string) :
  Js.substringFrom (s +:+ t) (String.length s) = t.
Proof. induction s as [|ch s IH]; unfold_app; [by destruct t | done]. Qed.

Lemma substringTo_substringTo (s : string) (a b : nat) :
  a <= b -> Js.substringTo (Js.substringTo s b) a = Js.substringTo s a.
Proof.
  revert a b. induction s as [|ch s IH]; intros [|a] [|b] Hab; simpl;
    try done; try lia.
  rewrite IH; [done | lia].
Qed.

Lemma substringTo_substringFrom (s : string) (n : nat) :
  Js.substringTo s n +:+ Js.substringFrom s n = s.
Proof.
  revert n. induction s as [|ch s IH]; intros [|n]; simpl; unfold_app; try done.
  by rewrite IH.
Qed.

(** A prefix followed by the adjacent slice is the longer prefix. *)
Lemma substringTo_substring (s : string) (a b : nat) :
  a <= b -> Js.substringTo s a +:+ Js.substring s a b = Js.substringTo s b.
Proof.
  unfold Js.substring. revert a b.
  induction s as [|ch s IH]; intros [|a] [|b] Hab; simpl; unfold_app;
    try done; try lia.
  - by destruct (b - a).
  - rewrite IH; [done | lia].
Qed.

End JsStrings.

(** ** The loop of [run] as a walk over the reversed record list *)

Section Walk.
Context {env : Environment}.
Variable this : TemplateProcessor.t.
Variable map : gmap string string.

Let exprs := TemplateContainer.mapExprList (TemplateProcessor.atmplContainer this).

(** The loop body carries out the replacement the record computes. *)
Lemma processExpr_replacementFor (mapExpr : MappedExpression.t) (working : string) :
  TemplateProcessor.processExpr this map mapExpr working =
  match SinglePass.replacementFor this map mapExpr with
  | (warnings, Threw e) => (warnings, Threw e)
  | (warnings, Ok edit) => (warnings, Ok (Walk.applyEdit working mapExpr edit))
  end.
Proof.
  unfold TemplateProcessor.processExpr, SinglePass.replacementFor.
  destruct (MappedExpression.isIterated mapExpr).
  { by destruct (TemplateProcessor.retrieveValueFromIterDec _ _). }
  destruct (MappedExpression.isParameterized mapExpr).
  { destruct (TemplateProcessor.templateParameters this) as [parameters|]; [|done].
    by destruct (Js.getProperty parameters _). }
  destruct (map !! _) as [value|].
  - assert (Hchosen :
      (if MappedExpression.isTernary mapExpr
       then if negb (bool_decide (value = ""))
            then MappedExpression.ternaryTrue mapExpr
            else match MappedExpression.ternaryFalse mapExpr with
                 | Some ternaryFalse =>
                     if Js.truthy (Some ternaryFalse) then ternaryFalse else ""
                 | None => ""
                 end
       else value) =
      (if MappedExpression.isTernary mapExpr
       then if bool_decide (value = "")
            then default "" (MappedExpression.ternaryFalse mapExpr)
            else MappedExpression.ternaryTrue mapExpr
       else value)).
    { destruct (MappedExpression.isTernary mapExpr); [|done].
      destruct (bool_decide (value = "")); simpl; [|done].
      destruct (MappedExpression.ternaryFalse mapExpr) as [no|]; simpl; [|done].
      by case_bool_decide. }
    cbv zeta. rewrite Hchosen.
    destruct (MappedExpression.pipeFunctions mapExpr) as [[|name names]|];
      try done.
    change (default [] (Some (name :: names))) with (name :: names).
    by destruct (PipeFunctionsProcessor.invoke _ _ _).
  - by destruct (MappedExpression.isOptional mapExpr),
         (TemplateContainer.optionalityByDefault _).
Qed.

(** Counting the loop down from [count] visits the first [count] records
    from the last to the first. *)
Lemma runLoop_visit (count : nat) (logged : list Warning) (working : string) :
  count <= length exprs ->
  TemplateProcessor.runLoop this map count logged working =
  Walk.visit this map (reverse (take count exprs)) logged working.
Proof.
  revert logged working.
  induction count as [|index IH]; intros logged working Hcount; [done|].
  destruct (lookup_lt_is_Some_2 exprs index) as [mapExpr Hlookup]; [lia|].
  rewrite (take_S_r _ _ _ Hlookup), reverse_snoc. simpl.
  fold exprs. rewrite Hlookup.
  destruct (TemplateProcessor.processExpr this map mapExpr working)
    as [warnings [working'|e]]; [|done].
  apply IH. lia.
Qed.

Lemma applyDescending_app (front back : list (MappedExpression.t * SinglePass.Edit))
    (working : string) :
  Walk.applyDescending (front ++ back) working =
  Walk.applyDescending front (Walk.applyDescending back working).
Proof.
  induction front as [|[mapExpr edit] front IH]; simpl; [done | by rewrite IH].
Qed.

(** Visiting records one by one is resolving all of them and then carrying
    out the edits in the order of the visit. *)
Lemma visit_resolveAll (visited : list MappedExpression.t)
    (logged : list Warning) (working : string) :
  Walk.visit this map visited logged working =
  match SinglePass.resolveAll this map visited with
  | (warnings, Threw e) => (logged ++ warnings, Threw e)
  | (warnings, Ok edits) =>
      (logged ++ warnings, Ok (Walk.applyDescending (reverse edits) working))
  end.
Proof.
  revert logged working.
  induction visited as [|mapExpr rest IH]; intros logged working; simpl.
  { by rewrite app_nil_r. }
  rewrite processExpr_replacementFor.
  destruct (SinglePass.replacementFor this map mapExpr) as [warnings [edit|e]];
    [|done].
  rewrite IH.
  destruct (SinglePass.resolveAll this map rest) as [warnings' [edits|e]].
  - by rewrite reverse_cons, applyDescending_app, (assoc_L (++)).
  - by rewrite (assoc_L (++)).
Qed.

(** The edits that come out of [resolveAll] are those of the records that
    went in, in the same order. *)
Lemma resolveAll_records (visited : list MappedExpression.t)
    (warnings : list Warning) (edits : list (MappedExpression.t * SinglePass.Edit)) :
  SinglePass.resolveAll this map visited = (warnings, Ok edits) ->
  edits.*1 = visited.
Proof.
  revert warnings edits.
  induction visited as [|mapExpr rest IH]; intros warnings edits; simpl.
  { by intros [= <- <-]. }
  destruct (SinglePass.replacementFor this map mapExpr) as [ws [edit|e]]; [|done].
  destruct (SinglePass.resolveAll this map rest) as [ws' [edits'|e]]; [|done].
  intros [= <- <-]. simpl. f_equal. by eapply IH.
Qed.

End Walk.

(** ** Descending edits against one splice *)

Section Splice.
Context {env : Environment}.

Lemma chained_weaken (position position' limit : nat)
    (exprs : list MappedExpression.t) :
  position <= position' -> chained position' limit exprs ->
  chained position limit exprs.
Proof. destruct exprs as [|mapExpr rest]; simpl; [done|]. intuition lia. Qed.

Lemma substringFrom_app_length (s t : string) (n : nat) :
  String.length s = n -> Js.substringFrom (s +:+ t) n = t.
Proof. intros <-. apply substringFrom_app. Qed.

(** Rewriting the range [start, stop) of a text that still agrees with the
    original up to [stop] only needs the original before [start]. *)
Lemma replaceRange_prefix (original rest : string) (start stop : nat)
    (replacement : option string) :
  start <= stop -> stop <= String.length original ->
  StringContainer.replaceRange (Js.substringTo original stop +:+ rest)
    start stop replacement =
  Js.substringTo original start +:+ default undefinedText replacement +:+ rest.
Proof.
  intros Hstart Hstop. unfold StringContainer.replaceRange.
  rewrite substringTo_app by (rewrite length_substringTo; lia).
  rewrite substringTo_substringTo by done.
  by rewrite substringFrom_app_length by (by apply length_substringTo).
Qed.

(** Edits carried out from the highest offset down leave the text before
    [position] alone and produce, from [position] on, what the splice
    produces. *)
Lemma applyDescending_splice (edits : list (MappedExpression.t * SinglePass.Edit))
    (original : string) (position : nat) :
  chained position (String.length original) edits.*1 ->
  Walk.applyDescending edits original =
  Js.substringTo original position +:+ SinglePass.splice original position edits.
Proof.
  revert position.
  induction edits as [|[mapExpr [|replacement]] rest IH]; intros position; simpl.
  - intros _. by rewrite substringTo_substringFrom.
  - intros (Hposition & Hstart & Hstop & Hrest).
    apply IH. eapply chained_weaken; [|done]. lia.
  - intros (Hposition & Hstart & Hstop & Hrest).
    rewrite (IH _ Hrest), replaceRange_prefix by done.
    by rewrite <-(substringTo_substring original position) by done;
      rewrite app_assoc.
Qed.

Lemma ascendingDisjoint_chained (position limit : nat)
    (exprs : list MappedExpression.t) :
  ascendingDisjoint limit exprs = true ->
  Forall (fun mapExpr => position <= MappedExpression.startIndex mapExpr) exprs ->
  chained position limit exprs.
Proof.
  revert position.
  induction exprs as [|mapExpr rest IH]; intros position; simpl; [done|].
  rewrite !andb_true_iff, Nat.ltb_lt, Nat.leb_le, forallb_forall.
  intros [[[Hnonempty Hlimit] Hlater] Hrest] Hfrom.
  apply Forall_cons in Hfrom as [Hposition _].
  repeat split; [done | lia | done |].
  apply IH; [done|]. apply Forall_forall. intros later Hin.
  specialize (Hlater later (proj1 (list_elem_of_In _ _) Hin)).
  apply andb_true_iff in Hlater as [Hascending Hdisjoint].
  apply Nat.leb_le in Hascending.
  assert (MappedExpression.startIndex later < MappedExpression.endIndex later).
  { clear -Hrest Hin. induction rest as [|first rest IH]; [by inversion Hin|].
    simpl in Hrest. rewrite !andb_true_iff, Nat.ltb_lt in Hrest.
    apply elem_of_cons in Hin as [->|Hin]; [tauto|]. apply IH; tauto. }
  unfold disjointRanges in Hdisjoint.
  apply orb_true_iff in Hdisjoint as [H1|H2]; apply Nat.leb_le in H1 || apply Nat.leb_le in H2; lia.
Qed.

End Splice.

(** ** The run as a whole *)

Section Run.
Context {env : Environment}.
Variable this : TemplateProcessor.t.
Variable map : gmap string string.

Let container := TemplateProcessor.atmplContainer this.

(** Past the guards, a run resolves every record from the last to the
    first, carries out the edits in that order on a copy of the template
    text, and strips the declared-iteration markers. *)
Lemma run_past_guards :
  TemplateContainer.skip container = false ->
  TemplateContainer.invalid container = false ->
  map <> ∅ ->
  TemplateProcessor.run this map =
  match SinglePass.resolveAll this map
          (reverse (TemplateContainer.mapExprList container)) with
  | (warnings, Threw e) =>
      {| TemplateProcessor.after := this; TemplateProcessor.console := warnings;
         TemplateProcessor.completion := Threw e |}
  | (warnings, Ok edits) =>
      {| TemplateProcessor.after := this; TemplateProcessor.console := warnings;
         TemplateProcessor.completion :=
           Ok (removeIterDec
                 (Walk.applyDescending (reverse edits)
                    (TemplateContainer.fileContents container))) |}
  end.
Proof.
  intros Hskip Hinvalid Hmap. unfold TemplateProcessor.run. fold container.
  rewrite Hskip, Hinvalid.
  rewrite bool_decide_eq_false_2 by (by rewrite map_size_empty_iff).
  rewrite runLoop_visit by done. rewrite firstn_all, visit_resolveAll.
  by destruct (SinglePass.resolveAll _ _ _) as [warnings [edits|e]].
Qed.

End Run.

(** C1 (offset safety).  For a parsed template whose records are in
    ascending order of [startIndex] with pairwise disjoint, non-empty ranges
    inside the template text, [run], which walks the records from the highest
    offset down and rewrites the working text range by range, gives exactly
    the outcome of computing every replacement on its own and splicing all of
    them into the original text in one pass, whatever the lengths of the
    replacements. *)
Theorem run_offset_safety {env : Environment} (this : TemplateProcessor.t)
    (map : gmap string string) :
  ascendingDisjoint
    (String.length
       (TemplateContainer.fileContents (TemplateProcessor.atmplContainer this)))
    (TemplateContainer.mapExprList (TemplateProcessor.atmplContainer this)) = true ->
  TemplateProcessor.run this map = SinglePass.run this map.
Proof.
  intros Hranges.
  destruct (TemplateContainer.skip (TemplateProcessor.atmplContainer this)) eqn:Hskip.
  { unfold TemplateProcessor.run, SinglePass.run. by rewrite Hskip. }
  destruct (TemplateContainer.invalid (TemplateProcessor.atmplContainer this))
    eqn:Hinvalid.
  { unfold TemplateProcessor.run, SinglePass.run. by rewrite Hskip, Hinvalid. }
  destruct (decide (map = ∅)) as [->|Hmap].
  { unfold TemplateProcessor.run, SinglePass.run. by rewrite Hskip, Hinvalid. }
  rewrite run_past_guards by done.
  unfold SinglePass.run. rewrite Hskip, Hinvalid, bool_decide_eq_false_2 by done.
  destruct (SinglePass.resolveAll _ _ _) as [warnings [edits|e]] eqn:Hresolve;
    [|done].
  do 3 f_equal.
  rewrite (applyDescending_splice _ _ 0).
  { by destruct (TemplateContainer.fileContents _). }
  rewrite fmap_reverse, (resolveAll_records _ _ _ _ _ Hresolve), reverse_involutive.
  apply ascendingDisjoint_chained; [done|].
  apply Forall_forall. intros; lia.
Qed.

Lemma run_offset_safety_witness :
  let this := Examples.processor (Examples.greeting false false) in
  TemplateProcessor.run (env := Examples.environment) this Examples.adaLovelace
  = SinglePass.run (env := Examples.environment) this Examples.adaLovelace.
Proof. apply (run_offset_safety (env := Examples.environment)). reflexivity. Defined.

(** No branch of [run] assigns to the processor. *)
Lemma run_after {env : Environment} (this : TemplateProcessor.t)
    (map : gmap string string) :
  TemplateProcessor.after (TemplateProcessor.run this map) = this.
Proof.
  unfold TemplateProcessor.run.
  destruct (TemplateContainer.skip _); [done|].
  destruct (TemplateContainer.invalid _); [done|].
  case_bool_decide; [done|].
  by destruct (TemplateProcessor.runLoop _ _ _ _ _) as [logged [working|e]].
Qed.

(** C4 (guard cascade).  With the skip flag set, [run] returns the template
    text unchanged, whatever the map and the invalid flag; otherwise, with
    the invalid flag set, it throws the configuration error; otherwise, on an
    empty map, it throws the input error.  In the two throwing cases nothing
    is logged, no string comes back and the processor is left untouched. *)
Theorem run_guard_cascade {env : Environment} (this : TemplateProcessor.t)
    (map : gmap string string) :
  let container := TemplateProcessor.atmplContainer this in
  (TemplateContainer.skip container = true ->
     TemplateProcessor.run this map =
     {| TemplateProcessor.after := this; TemplateProcessor.console := [];
        TemplateProcessor.completion :=
          Ok (TemplateContainer.fileContents container) |})
  /\ (TemplateContainer.skip container = false ->
      TemplateContainer.invalid container = true ->
      TemplateProcessor.run this map =
      {| TemplateProcessor.after := this; TemplateProcessor.console := [];
         TemplateProcessor.completion := Threw TemplateInvalid |}
      /\ errorKind TemplateInvalid = ConfigurationError)
  /\ (TemplateContainer.skip container = false ->
      TemplateContainer.invalid container = false ->
      map = ∅ ->
      TemplateProcessor.run this map =
      {| TemplateProcessor.after := this; TemplateProcessor.console := [];
         TemplateProcessor.completion := Threw EmptyMap |}
      /\ errorKind EmptyMap = InputError).
Proof.
  unfold TemplateProcessor.run. split; [|split].
  - by intros ->.
  - by intros -> ->.
  - by intros -> -> ->.
Qed.

Lemma run_guard_cascade_witness :
  (let this := Examples.processor Examples.passthrough in
   TemplateProcessor.run (env := Examples.environment) this ∅ =
   {| TemplateProcessor.after := this; TemplateProcessor.console := [];
      TemplateProcessor.completion := Ok "no expressions here" |})
  /\ (let this := Examples.processor Examples.broken in
     TemplateProcessor.run (env := Examples.environment) this Examples.ada =
     {| TemplateProcessor.after := this; TemplateProcessor.console := [];
        TemplateProcessor.completion := Threw TemplateInvalid |}
     /\ errorKind TemplateInvalid = ConfigurationError)
  /\ (let this := Examples.processor (Examples.greeting false false) in
     TemplateProcessor.run (env := Examples.environment) this ∅ =
     {| TemplateProcessor.after := this; TemplateProcessor.console := [];
        TemplateProcessor.completion := Threw EmptyMap |}
     /\ errorKind EmptyMap = InputError).
Proof.
  split; [|split].
  - exact (proj1 (run_guard_cascade (env := Examples.environment)
                    (Examples.processor Examples.passthrough) ∅) eq_refl).
  - exact (proj1 (proj2 (run_guard_cascade (env := Examples.environment)
                           (Examples.processor Examples.broken) Examples.ada))
             eq_refl eq_refl).
  - exact (proj2 (proj2 (run_guard_cascade (env := Examples.environment)
                           (Examples.processor (Examples.greeting false false)) ∅))
             eq_refl eq_refl eq_refl).
Defined.

(** ** What a run writes *)

Section Writes.
Context {env : Environment}.
Variable this : Heap.Processor.
Variable map : gmap string string.
Variable container : TemplateContainer.t.
Variable workingResult : Heap.loc.

Hypothesis distinct : Heap.atmplContainer this <> workingResult.

Let inRun := Heap.inRun this container workingResult.

Lemma inRun_insert (σ : gmap Heap.loc Heap.Object) (held held' : string) :
  inRun σ held ->
  inRun (<[workingResult := Heap.StringContainerObject held']> σ) held'.
Proof using distinct.
  intros [Hcontainer _]. unfold inRun, Heap.inRun. split.
  - rewrite lookup_insert_ne; [done | congruence].
  - by rewrite lookup_insert_eq.
Qed.

(** The loop body on the store does to the working object what the loop
    body does to the working text, and writes nowhere else. *)
Lemma heap_processExpr (σ : gmap Heap.loc Heap.Object) (held : string)
    (mapExpr : MappedExpression.t) :
  inRun σ held ->
  Heap.processExpr σ this map mapExpr workingResult =
  match TemplateProcessor.processExpr (Heap.view this container) map mapExpr held with
  | (warnings, Threw e) => (σ, warnings, Threw e)
  | (warnings, Ok held') =>
      (<[workingResult := Heap.StringContainerObject held']> σ, warnings, Ok tt)
  end.
Proof using Type.
  intros [Hcontainer Hworking].
  assert (Hkept : <[workingResult := Heap.StringContainerObject held]> σ = σ)
    by (by apply insert_id).
  unfold Heap.processExpr, Heap.readContainer, Heap.replaceRange,
    TemplateProcessor.processExpr.
  rewrite Hcontainer, Hworking. simpl.
  destruct (MappedExpression.isIterated mapExpr).
  { by destruct (TemplateProcessor.retrieveValueFromIterDec _ _). }
  destruct (MappedExpression.isParameterized mapExpr).
  { destruct (Heap.templateParameters this) as [parameters|]; [|done].
    destruct (Js.getProperty parameters _); [done|]. by rewrite Hkept. }
  destruct (map !! _) as [value|].
  - by destruct (match MappedExpression.pipeFunctions mapExpr with
                 | Some (name :: names) => _
                 | _ => _
                 end).
  - destruct (negb _ && negb _); [|done]. by rewrite Hkept.
Qed.

(** The loop on the store: the warnings and the error of the loop on the
    text, and a store that differs from the one it started in at the working
    object only. *)
Lemma heap_runLoop (count : nat) :
  forall (σ : gmap Heap.loc Heap.Object) (held : string) (logged : list Warning),
    inRun σ held ->
    match TemplateProcessor.runLoop (Heap.view this container) map count logged held with
    | (warnings, Ok held') =>
        Heap.runLoop σ this map workingResult count logged =
        (<[workingResult := Heap.StringContainerObject held']> σ, warnings, Ok tt)
    | (warnings, Threw e) =>
        exists held',
          Heap.runLoop σ this map workingResult count logged =
          (<[workingResult := Heap.StringContainerObject held']> σ, warnings, Threw e)
    end.
Proof using distinct.
  induction count as [|index IH]; intros σ held logged Hin.
  { simpl. destruct Hin as [_ Hworking]. by rewrite insert_id. }
  pose proof Hin as [Hcontainer Hworking].
  simpl. unfold Heap.readContainer. rewrite Hcontainer.
  destruct (TemplateContainer.mapExprList container !! index) as [mapExpr|].
  2:{ exists held. by rewrite insert_id. }
  rewrite (heap_processExpr σ held mapExpr Hin).
  destruct (TemplateProcessor.processExpr _ map mapExpr held)
    as [warnings [held1|e]].
  - specialize (IH _ held1 (logged ++ warnings) (inRun_insert σ held held1 Hin)).
    destruct (TemplateProcessor.runLoop _ map index (logged ++ warnings) held1)
      as [warnings' [held2|e]].
    + by rewrite IH, insert_insert_eq.
    + destruct IH as [held2 ->]. exists held2. by rewrite insert_insert_eq.
  - exists held. by rewrite insert_id.
Qed.

End Writes.

(** The run on the store, against the run on the text: the same warnings
    and the same result, and a store that is either the one the run started
    in or that one with a single new object, the working object. *)
Lemma heap_run {env : Environment} (σ : gmap Heap.loc Heap.Object)
    (this : Heap.Processor) (map : gmap string string)
    (container : TemplateContainer.t) :
  σ !! Heap.atmplContainer this = Some (Heap.ContainerObject container) ->
  let pure := TemplateProcessor.run (Heap.view this container) map in
  let outcome := Heap.run σ this map in
  Heap.console outcome = TemplateProcessor.console pure
  /\ Heap.completion outcome = TemplateProcessor.completion pure
  /\ (Heap.store outcome = σ
      /\ (TemplateContainer.skip container = false ->
          returned (Heap.completion outcome) = false)
      \/ exists held,
           Heap.store outcome =
           <[fresh (dom σ) := Heap.StringContainerObject held]> σ
           /\ (forall text, Heap.completion outcome = Ok text -> held = text)).
Proof.
  intros Hcontainer pure outcome. subst pure outcome.
  unfold Heap.run, Heap.readContainer, TemplateProcessor.run. rewrite Hcontainer.
  simpl.
  destruct (TemplateContainer.skip container); [by auto|].
  destruct (TemplateContainer.invalid container); [by auto|].
  case_bool_decide; [by auto|].
  set (w := fresh (dom σ)).
  assert (Hfresh : σ !! w = None) by apply not_elem_of_dom, is_fresh.
  assert (Hdistinct : Heap.atmplContainer this <> w) by congruence.
  set (σ1 := <[w := Heap.StringContainerObject
                     (StringContainer.new (TemplateContainer.fileContents container))]> σ).
  assert (Hin : Heap.inRun this container w σ1
                  (StringContainer.new (TemplateContainer.fileContents container))).
  { unfold σ1. split; [|by rewrite lookup_insert_eq].
    rewrite lookup_insert_ne; [done | congruence]. }
  pose proof (heap_runLoop this map container w Hdistinct
                (length (TemplateContainer.mapExprList container)) σ1 _ [] Hin)
    as Hloop.
  destruct (TemplateProcessor.runLoop _ map _ [] _) as [warnings [held|e]].
  - rewrite Hloop. unfold Heap.replaceIterDec, Heap.toString.
    rewrite lookup_insert_eq, lookup_insert_eq. simpl.
    split_and!; [done | done |]. right. eexists. split.
    + subst σ1. by rewrite !insert_insert_eq.
    + by intros text [= <-].
  - destruct Hloop as [held ->]. simpl.
    split_and!; [done | done |]. right. exists held. split.
    + subst σ1. by rewrite insert_insert_eq.
    + done.
Qed.

(** C5, as the spec has it, fails.  The store holds the container of the
    greeting template; the run replaces the seven characters of the
    placeholder for [name] by three and the six of the placeholder for [age]
    by two, and the text of the container in the store the run leaves is the
    template text: it does not differ from the text that was parsed. *)
Lemma run_mutates_container_counterexample :
  let σ : gmap Heap.loc Heap.Object :=
    {[ 1%positive := Heap.ContainerObject (Examples.greeting false false) ]} in
  let outcome :=
    Heap.run (env := Examples.environment) σ (MoreExamples.referring 1) Examples.adaLovelace in
  Heap.completion outcome = Ok "Hello Ada, you are 37!"
  /\ Heap.fileContentsAt σ 1 = Some "Hello &{name}, you are &{age}!"
  /\ Heap.fileContentsAt (Heap.store outcome) 1 = Some "Hello &{name}, you are &{age}!"
  /\ ~ (Heap.fileContentsAt (Heap.store outcome) 1 <> Heap.fileContentsAt σ 1).
Proof.
  assert (Hafter :
    Heap.fileContentsAt
      (Heap.store
         (Heap.run (env := Examples.environment)
            {[ 1%positive := Heap.ContainerObject (Examples.greeting false false) ]}
            (MoreExamples.referring 1) Examples.adaLovelace)) 1
    = Some "Hello &{name}, you are &{age}!") by (by vm_compute).
  split_and!; [by vm_compute | done | done |].
  intros Hdiffers. apply Hdiffers. by rewrite Hafter.
Qed.

(** C5 (amended).  A run does not mutate the container.  In whatever store
    the processor's reference leads to a container, the run allocates its
    working [StringContainer] at a location the store did not use, and every
    write of the run goes to that object: all objects the store held before
    the run, the container and its [fileContents] among them, are the same
    after it, whether the run returned or threw.  What the run does rewrite
    destructively is its own working object, which ends up holding the
    returned text.  A second run from the same container, in the store the
    first one left, therefore gives the warnings and the result it would
    have given in the store before, with no parsing again and no cloning. *)
Theorem run_leaves_container {env : Environment} (σ : gmap Heap.loc Heap.Object)
    (this : Heap.Processor) (map : gmap string string)
    (container : TemplateContainer.t) :
  σ !! Heap.atmplContainer this = Some (Heap.ContainerObject container) ->
  let outcome := Heap.run σ this map in
  (forall l object, σ !! l = Some object -> Heap.store outcome !! l = Some object)
  /\ Heap.fileContentsAt (Heap.store outcome) (Heap.atmplContainer this)
     = Some (TemplateContainer.fileContents container)
  /\ (forall text, Heap.completion outcome = Ok text ->
        TemplateContainer.skip container = false ->
        exists workingResult,
          σ !! workingResult = None
          /\ Heap.store outcome !! workingResult
             = Some (Heap.StringContainerObject text))
  /\ (forall map' : gmap string string,
        Heap.console (Heap.run (Heap.store outcome) this map')
          = Heap.console (Heap.run σ this map')
        /\ Heap.completion (Heap.run (Heap.store outcome) this map')
           = Heap.completion (Heap.run σ this map')).
Proof.
  intros Hcontainer outcome.
  destruct (heap_run σ this map container Hcontainer) as (_ & _ & Hstore).
  fold outcome in Hstore.
  assert (Hfresh : σ !! fresh (dom σ) = None) by apply not_elem_of_dom, is_fresh.
  assert (Hframe : forall l object,
            σ !! l = Some object -> Heap.store outcome !! l = Some object).
  { intros l object Hl. destruct Hstore as [[-> _] | (held & -> & _)]; [done|].
    rewrite lookup_insert_ne; [done|]. congruence. }
  assert (Hafter : Heap.store outcome !! Heap.atmplContainer this
                   = Some (Heap.ContainerObject container)) by (by apply Hframe).
  split_and!.
  - done.
  - unfold Heap.fileContentsAt. by rewrite Hafter.
  - intros text Hreturned Hskip. exists (fresh (dom σ)). split; [done|].
    destruct Hstore as [[_ Hthrew] | (held & -> & Hheld)].
    + specialize (Hthrew Hskip). by rewrite Hreturned in Hthrew.
    + rewrite lookup_insert_eq. by rewrite (Hheld text Hreturned).
  - intros map'.
    destruct (heap_run σ this map' container Hcontainer) as (-> & -> & _).
    by destruct (heap_run (Heap.store outcome) this map' container Hafter)
      as (-> & -> & _).
Qed.

Lemma run_leaves_container_witness :
  Heap.fileContentsAt
    (Heap.store
       (Heap.run (env := Examples.environment)
          {[ 1%positive := Heap.ContainerObject (Examples.greeting false false) ]}
          (MoreExamples.referring 1) Examples.adaLovelace)) 1
  = Some "Hello &{name}, you are &{age}!".
Proof.
  exact (proj1 (proj2 (run_leaves_container (env := Examples.environment)
           {[ 1%positive := Heap.ContainerObject (Examples.greeting false false) ]}
           (MoreExamples.referring 1) Examples.adaLovelace
           (Examples.greeting false false) eq_refl))).
Defined.

(** ** Records one at a time *)

Section Records.
Context {env : Environment}.
Variable this : TemplateProcessor.t.
Variable map : gmap string string.

Let container := TemplateProcessor.atmplContainer this.
Let exprs := TemplateContainer.mapExprList container.

(** One turn of the loop. *)
Lemma runLoop_step (index : nat) (mapExpr : MappedExpression.t)
    (logged : list Warning) (working : string) :
  exprs !! index = Some mapExpr ->
  TemplateProcessor.runLoop this map (S index) logged working =
  match TemplateProcessor.processExpr this map mapExpr working with
  | (warnings, Threw e) => (logged ++ warnings, Threw e)
  | (warnings, Ok working') =>
      TemplateProcessor.runLoop this map index (logged ++ warnings) working'
  end.
Proof. intros Hlookup. simpl. fold container exprs. by rewrite Hlookup. Qed.

(** The run of a template with a single record. *)
Lemma run_single (mapExpr : MappedExpression.t) :
  exprs = [mapExpr] ->
  TemplateContainer.skip container = false ->
  TemplateContainer.invalid container = false ->
  map <> ∅ ->
  TemplateProcessor.run this map =
  match TemplateProcessor.processExpr this map mapExpr
          (TemplateContainer.fileContents container) with
  | (warnings, Threw e) =>
      {| TemplateProcessor.after := this; TemplateProcessor.console := warnings;
         TemplateProcessor.completion := Threw e |}
  | (warnings, Ok working) =>
      {| TemplateProcessor.after := this; TemplateProcessor.console := warnings;
         TemplateProcessor.completion := Ok (removeIterDec working) |}
  end.
Proof.
  intros Hexprs Hskip Hinvalid Hmap. unfold TemplateProcessor.run.
  fold container exprs. rewrite Hskip, Hinvalid, Hexprs.
  rewrite bool_decide_eq_false_2 by (by rewrite map_size_empty_iff).
  rewrite (runLoop_step 0 mapExpr) by (by rewrite Hexprs).
  by destruct (TemplateProcessor.processExpr _ _ _ _) as [warnings [working|e]].
Qed.

Lemma resolveAll_app (front back : list MappedExpression.t) :
  SinglePass.resolveAll this map (front ++ back) =
  match SinglePass.resolveAll this map front with
  | (warnings, Threw e) => (warnings, Threw e)
  | (warnings, Ok edits) =>
      match SinglePass.resolveAll this map back with
      | (warnings', Threw e) => (warnings ++ warnings', Threw e)
      | (warnings', Ok edits') => (warnings ++ warnings', Ok (edits ++ edits'))
      end
  end.
Proof.
  induction front as [|mapExpr front IH]; simpl.
  { by destruct (SinglePass.resolveAll this map back) as [warnings [edits|e]]. }
  destruct (SinglePass.replacementFor this map mapExpr) as [ws [edit|e]]; [|done].
  rewrite IH.
  destruct (SinglePass.resolveAll this map front) as [ws1 [edits1|e]]; [|done].
  destruct (SinglePass.resolveAll this map back) as [ws2 [edits2|e]];
    by rewrite (assoc_L (++)).
Qed.

(** When every record resolves, so does the list, and the console is the
    warnings of the records in the order of the visit. *)
Lemma resolveAll_resolves (visited : list MappedExpression.t) :
  Forall (fun mapExpr => resolves this map mapExpr = true) visited ->
  exists edits,
    SinglePass.resolveAll this map visited =
    (flat_map (warningsOf this map) visited, Ok edits).
Proof.
  induction 1 as [|mapExpr rest Hfirst _ [edits IH]]; simpl; [by eexists|].
  unfold resolves, warningsOf in *.
  destruct (SinglePass.replacementFor this map mapExpr) as [ws [edit|e]];
    [|done].
  rewrite IH. by eexists.
Qed.

(** A fatal outcome comes from the first record of the visit that does not
    resolve. *)
Lemma resolveAll_threw (visited : list MappedExpression.t)
    (warnings : list Warning) (e : Error) :
  SinglePass.resolveAll this map visited = (warnings, Threw e) ->
  exists before mapExpr later,
    visited = before ++ mapExpr :: later
    /\ Forall (fun earlier => resolves this map earlier = true) before
    /\ (SinglePass.replacementFor this map mapExpr).2 = Threw e.
Proof.
  revert warnings.
  induction visited as [|mapExpr rest IH]; intros warnings; simpl; [done|].
  destruct (SinglePass.replacementFor this map mapExpr) as [ws [edit|e']]
    eqn:Hfirst.
  - destruct (SinglePass.resolveAll this map rest) as [ws' [edits|e']]; [done|].
    intros [= <- <-].
    destruct (IH _ eq_refl) as (before & culprit & later & -> & Hbefore & Hculprit).
    exists (mapExpr :: before), culprit, later. split_and!; [done| |done].
    constructor; [|done]. unfold resolves. by rewrite Hfirst.
  - intros [= <- <-]. exists [], mapExpr, rest. by rewrite Hfirst.
Qed.

(** The other way round. *)
Lemma resolveAll_first_fatal (before later : list MappedExpression.t)
    (mapExpr : MappedExpression.t) (e : Error) :
  Forall (fun earlier => resolves this map earlier = true) before ->
  (SinglePass.replacementFor this map mapExpr).2 = Threw e ->
  (SinglePass.resolveAll this map (before ++ mapExpr :: later)).2 = Threw e.
Proof.
  intros Hbefore Hfatal. rewrite resolveAll_app.
  destruct (resolveAll_resolves _ Hbefore) as [edits ->]. simpl.
  by destruct (SinglePass.replacementFor this map mapExpr) as [ws [edit|e']];
    simplify_eq/=.
Qed.

(** *** Where a state error can come from *)

Lemma forEachIterDec_threw (key : string) (iterDecs : list DeclaredIteration.t)
    (result : option string) (e : Error) :
  TemplateProcessor.forEachIterDec this key iterDecs result = Threw e ->
  errorKind e = ResolutionError.
Proof.
  revert result. induction iterDecs as [|iterDec rest IH]; intros result; simpl;
    [done|].
  case_bool_decide; [|by apply IH].
  unfold TemplateFunctionsProcessor.invoke.
  destruct (TemplateFunctionsProcessor.custom _ !! _); [by apply IH|].
  destruct (TemplateFunctionsProcessor.builtin _ !! _); [by apply IH|].
  by intros [= <-].
Qed.

Lemma invoke_threw (names : list string) (value : string) (e : Error) :
  PipeFunctionsProcessor.invoke (TemplateProcessor.pipeFunctionsProcessor this)
    names value = Threw e ->
  errorKind e = ResolutionError.
Proof.
  revert value. induction names as [|name rest IH]; intros value; simpl; [done|].
  destruct (PipeFunctionsProcessor.resolve _ _); [by apply IH|].
  by intros [= <-].
Qed.

(** Only a record on the parameterized branch, met while no parameters are
    set, throws the state error. *)
Lemma replacementFor_state_error (mapExpr : MappedExpression.t) (e : Error) :
  (SinglePass.replacementFor this map mapExpr).2 = Threw e ->
  errorKind e = StateError ->
  reachesParameters mapExpr = true
  /\ TemplateProcessor.templateParameters this = None.
Proof.
  unfold SinglePass.replacementFor, reachesParameters.
  destruct (MappedExpression.isIterated mapExpr).
  { destruct (TemplateProcessor.retrieveValueFromIterDec _ _) as [value|e']
      eqn:Hiter; simpl; [done|].
    intros [= ->] Hkind. apply forEachIterDec_threw in Hiter. congruence. }
  destruct (MappedExpression.isParameterized mapExpr).
  { destruct (TemplateProcessor.templateParameters this) as [parameters|];
      [|done].
    by destruct (Js.getProperty parameters _). }
  destruct (map !! _) as [value|].
  - destruct (PipeFunctionsProcessor.invoke _ _ _) as [final|e'] eqn:Hpipes;
      simpl; [done|].
    intros [= ->] Hkind. apply invoke_threw in Hpipes. congruence.
  - by destruct (_ || _).
Qed.

Lemma replacementFor_no_parameters (mapExpr : MappedExpression.t) :
  reachesParameters mapExpr = true ->
  TemplateProcessor.templateParameters this = None ->
  SinglePass.replacementFor this map mapExpr = ([], Threw NoTemplateParameters).
Proof.
  unfold SinglePass.replacementFor, reachesParameters.
  destruct (MappedExpression.isIterated mapExpr),
    (MappedExpression.isParameterized mapExpr); try done.
  by intros _ ->.
Qed.

End Records.

(** C6, as the spec has it, fails in the direction from the template to the
    error.  Both templates below hold a parameterized expression and no
    parameters were ever set; on an empty map the run stops at the input
    error, and on a proper map the record after the parameterized one, met
    first, stops it with a resolution error for its unregistered pipe
    function.  Neither is a state error. *)
Lemma state_error_iff_counterexample :
  let this := Examples.processor Examples.service in
  let that := Examples.processor Examples.shouting in
  (Exists (fun mapExpr => MappedExpression.isParameterized mapExpr = true)
     (TemplateContainer.mapExprList (TemplateProcessor.atmplContainer this))
   /\ TemplateProcessor.templateParameters this = None
   /\ TemplateProcessor.completion
        (TemplateProcessor.run (env := Examples.environment) this ∅)
      = Threw EmptyMap
   /\ ~ throwsStateError
         (TemplateProcessor.run (env := Examples.environment) this ∅))
  /\ (Exists (fun mapExpr => MappedExpression.isParameterized mapExpr = true)
       (TemplateContainer.mapExprList (TemplateProcessor.atmplContainer that))
     /\ TemplateProcessor.templateParameters that = None
     /\ TemplateProcessor.completion
          (TemplateProcessor.run (env := Examples.environment) that Examples.ada)
        = Threw (FunctionNotFound "shout")
     /\ ~ throwsStateError
           (TemplateProcessor.run (env := Examples.environment) that Examples.ada)).
Proof.
  split; (split_and!;
    [ by apply Exists_cons_hd | done | by vm_compute
    | intros (e & Hthrown & Hkind); vm_compute in Hthrown; by simplify_eq ]).
Qed.

(** C6 (amended).  [run] throws a state error exactly when it gets past the
    guards (no skip flag, no invalid flag, a non-empty map), no parameters
    are set, and the walk reaches a record on the parameterized branch, that
    is, every record after it in the list resolves without a fatal error.
    A template without parameterized records never throws it, parameters or
    not.  When it is thrown no string is returned and the processor, with
    its container's text, is as it was. *)
Theorem state_error_iff {env : Environment} (this : TemplateProcessor.t)
    (map : gmap string string) :
  let container := TemplateProcessor.atmplContainer this in
  let exprs := TemplateContainer.mapExprList container in
  (throwsStateError (TemplateProcessor.run this map) <->
     TemplateContainer.skip container = false
     /\ TemplateContainer.invalid container = false
     /\ map <> ∅
     /\ TemplateProcessor.templateParameters this = None
     /\ exists front mapExpr back,
          exprs = front ++ mapExpr :: back
          /\ reachesParameters mapExpr = true
          /\ Forall (fun later => resolves this map later = true) back)
  /\ (Forall (fun mapExpr => MappedExpression.isParameterized mapExpr = false) exprs ->
      ~ throwsStateError (TemplateProcessor.run this map))
  /\ (throwsStateError (TemplateProcessor.run this map) ->
      returned (TemplateProcessor.completion (TemplateProcessor.run this map)) = false
      /\ TemplateProcessor.after (TemplateProcessor.run this map) = this).
Proof.
  intros container exprs.
  assert (Hiff : throwsStateError (TemplateProcessor.run this map) <->
     TemplateContainer.skip container = false
     /\ TemplateContainer.invalid container = false
     /\ map <> ∅
     /\ TemplateProcessor.templateParameters this = None
     /\ exists front mapExpr back,
          exprs = front ++ mapExpr :: back
          /\ reachesParameters mapExpr = true
          /\ Forall (fun later => resolves this map later = true) back).
  { split.
    - intros (e & Hthrown & Hkind).
      destruct (TemplateContainer.skip container) eqn:Hskip.
      { unfold TemplateProcessor.run in Hthrown. fold container in Hthrown.
        by rewrite Hskip in Hthrown. }
      destruct (TemplateContainer.invalid container) eqn:Hinvalid.
      { unfold TemplateProcessor.run in Hthrown. fold container in Hthrown.
        rewrite Hskip, Hinvalid in Hthrown. by simplify_eq/=. }
      destruct (decide (map = ∅)) as [->|Hmap].
      { unfold TemplateProcessor.run in Hthrown. fold container in Hthrown.
        rewrite Hskip, Hinvalid in Hthrown.
        rewrite bool_decide_eq_true_2 in Hthrown by apply map_size_empty.
        by simplify_eq/=. }
      rewrite run_past_guards in Hthrown by done.
      destruct (SinglePass.resolveAll _ _ _) as [warnings [edits|e']] eqn:Hresolve;
        simplify_eq/=.
      apply resolveAll_threw in Hresolve
        as (before & culprit & later & Hvisit & Hbefore & Hculprit).
      destruct (replacementFor_state_error _ _ _ _ Hculprit Hkind)
        as [Hreaches Hnone].
      split_and!; try done.
      exists (reverse later), culprit, (reverse before). split_and!; try done.
      + apply (inj reverse). unfold exprs, container.
        by rewrite Hvisit, reverse_app, reverse_cons, !reverse_involutive,
          <-(assoc_L (++)).
      + by apply Forall_reverse.
    - intros (Hskip & Hinvalid & Hmap & Hnone
              & front & mapExpr & back & Hexprs & Hreaches & Hback).
      exists NoTemplateParameters. split; [|done].
      rewrite run_past_guards by done. fold container exprs.
      rewrite Hexprs, reverse_app, reverse_cons, <-(assoc_L (++)). simpl.
      pose proof (resolveAll_first_fatal this map (reverse back) (reverse front)
                    mapExpr NoTemplateParameters) as Hfatal.
      destruct (SinglePass.resolveAll _ _ _) as [warnings [edits|e']]; simpl in *.
      + exfalso. assert (Ok edits = Threw NoTemplateParameters); [|done].
        apply Hfatal; [by apply Forall_reverse|].
        by rewrite replacementFor_no_parameters.
      + f_equal. assert (Threw e' = Threw NoTemplateParameters (A:=list (MappedExpression.t * SinglePass.Edit))) as [= ->]; [|done].
        apply Hfatal; [by apply Forall_reverse|].
        by rewrite replacementFor_no_parameters. }
  split_and!; [done| |].
  - intros Hnone (_ & _ & _ & _ & front & mapExpr & back & Hexprs & Hreaches & _)%Hiff.
    rewrite Forall_forall in Hnone.
    specialize (Hnone mapExpr). rewrite Hexprs in Hnone.
    unfold reachesParameters in Hreaches.
    rewrite Hnone in Hreaches
      by (apply elem_of_app; right; apply elem_of_cons; by left).
    by rewrite andb_false_r in Hreaches.
  - intros (e & Hthrown & _). by rewrite Hthrown, run_after.
Qed.

Lemma state_error_iff_witness :
  throwsStateError
    (TemplateProcessor.run (env := Examples.environment)
       (Examples.processor Examples.service) Examples.ada).
Proof.
  apply (proj1 (state_error_iff (env := Examples.environment)
                  (Examples.processor Examples.service) Examples.ada)).
  split_and!; [reflexivity | reflexivity | | reflexivity |].
  - intros Hempty. apply (f_equal (fun m : gmap string string => m !! "name")) in Hempty.
    vm_compute in Hempty. discriminate.
  - exists [], (Examples.parameterized "env" 4 11), [Examples.plain "name" false 16 23].
    split_and!; [reflexivity | reflexivity |].
    apply Forall_cons. split; [reflexivity | apply Forall_nil_2].
Defined.

(** ** The console of a run that completes *)

Section Console.
Context {env : Environment}.
Variable this : TemplateProcessor.t.
Variable map : gmap string string.

Let container := TemplateProcessor.atmplContainer this.
Let exprs := TemplateContainer.mapExprList container.

(** Past the guards, a run whose records all resolve returns a string, and
    its console holds the warnings of the records from the last record to
    the first. *)
Lemma run_returns :
  TemplateContainer.skip container = false ->
  TemplateContainer.invalid container = false ->
  map <> ∅ ->
  Forall (fun mapExpr => resolves this map mapExpr = true) exprs ->
  exists text,
    TemplateProcessor.run this map =
    {| TemplateProcessor.after := this;
       TemplateProcessor.console := flat_map (warningsOf this map) (reverse exprs);
       TemplateProcessor.completion := Ok text |}.
Proof.
  intros Hskip Hinvalid Hmap Hresolve.
  rewrite run_past_guards by done. fold container exprs.
  destruct (resolveAll_resolves this map (reverse exprs)) as [edits ->];
    [by apply Forall_reverse|].
  by eexists.
Qed.

Lemma countWarnings_app (test : Warning -> bool) (front back : list Warning) :
  countWarnings test (front ++ back) =
  countWarnings test front + countWarnings test back.
Proof. unfold countWarnings. by rewrite filter_app, length_app. Qed.

(** When each record logs one matching warning or none, the matching
    warnings of a visit are as many as the records that log one. *)
Lemma countWarnings_flat_map (test : Warning -> bool)
    (logs : MappedExpression.t -> bool) (visited : list MappedExpression.t) :
  (forall mapExpr,
     countWarnings test (warningsOf this map mapExpr) =
     if logs mapExpr then 1 else 0) ->
  countWarnings test (flat_map (warningsOf this map) visited) =
  length (filter (fun mapExpr => logs mapExpr = true) visited).
Proof.
  intros Heach. induction visited as [|mapExpr rest IH]; simpl; [done|].
  rewrite countWarnings_app, IH, Heach, filter_cons.
  destruct (logs mapExpr); by case_decide.
Qed.

(** On a map without [key], in a container that is not optional by
    default, the records that warn about [key] are the plain, non-optional
    records for it, with one warning each. *)
Lemma warningsOf_missing_key (key : string) (mapExpr : MappedExpression.t) :
  map !! key = None ->
  TemplateContainer.optionalityByDefault container = false ->
  countWarnings (isMissingKey key) (warningsOf this map mapExpr) =
  if requiresKey key mapExpr then 1 else 0.
Proof.
  intros Hkey Hdefault.
  unfold warningsOf, SinglePass.replacementFor, requiresKey, isPlain.
  fold container. rewrite Hdefault.
  destruct (MappedExpression.isIterated mapExpr); simpl.
  { by destruct (TemplateProcessor.retrieveValueFromIterDec _ _). }
  destruct (MappedExpression.isParameterized mapExpr); simpl.
  { destruct (TemplateProcessor.templateParameters this) as [parameters|]; [|done].
    by destruct (Js.getProperty parameters _). }
  case_bool_decide as Hsame.
  - rewrite Hsame, Hkey.
    destruct (MappedExpression.isOptional mapExpr); simpl; [done|].
    unfold countWarnings. simpl. rewrite filter_cons, decide_True; [done|].
    simpl. by rewrite bool_decide_eq_true_2.
  - rewrite andb_false_r.
    destruct (map !! MappedExpression.mappedKey mapExpr) as [value|].
    + by destruct (PipeFunctionsProcessor.invoke _ _ _).
    + destruct (MappedExpression.isOptional mapExpr); simpl; [done|].
      unfold countWarnings. rewrite filter_cons, decide_False; [done|].
      simpl. by rewrite bool_decide_eq_false_2.
Qed.

(** The same for a parameter missing from the parameters that were set. *)
Lemma warningsOf_missing_parameter (name : string)
    (parameters : Js.Object) (mapExpr : MappedExpression.t) :
  TemplateProcessor.templateParameters this = Some parameters ->
  Js.getProperty parameters name = None ->
  countWarnings (isMissingParameter name) (warningsOf this map mapExpr) =
  if readsParameter name mapExpr then 1 else 0.
Proof.
  intros Hset Hname.
  unfold warningsOf, SinglePass.replacementFor, readsParameter, reachesParameters.
  rewrite Hset.
  destruct (MappedExpression.isIterated mapExpr); simpl.
  { by destruct (TemplateProcessor.retrieveValueFromIterDec _ _). }
  destruct (MappedExpression.isParameterized mapExpr); simpl.
  - case_bool_decide as Hsame.
    + rewrite Hsame, Hname. unfold countWarnings. simpl.
      rewrite filter_cons, decide_True; [done|].
      simpl. by rewrite bool_decide_eq_true_2.
    + destruct (Js.getProperty parameters (MappedExpression.mappedKey mapExpr)); [done|].
      unfold countWarnings. simpl.
      rewrite filter_cons, decide_False; [done|].
      simpl. by rewrite bool_decide_eq_false_2.
  - destruct (map !! _) as [value|].
    + by destruct (PipeFunctionsProcessor.invoke _ _ _).
    + by destruct (_ || _).
Qed.

End Console.

(** ** Missing keys and parameters *)

Section Missing.
Context {env : Environment}.
Variable this : TemplateProcessor.t.
Variable map : gmap string string.

Let container := TemplateProcessor.atmplContainer this.
Let exprs := TemplateContainer.mapExprList container.

Lemma replacementFor_missing_key (mapExpr : MappedExpression.t) :
  isPlain mapExpr = true ->
  MappedExpression.isOptional mapExpr = false ->
  TemplateContainer.optionalityByDefault container = false ->
  map !! MappedExpression.mappedKey mapExpr = None ->
  SinglePass.replacementFor this map mapExpr =
  ([MissingKey (MappedExpression.mappedKey mapExpr)
      (TemplateContainer.filename container)], Ok SinglePass.Keep).
Proof.
  unfold isPlain, SinglePass.replacementFor. fold container.
  destruct (MappedExpression.isIterated mapExpr),
    (MappedExpression.isParameterized mapExpr); try done.
  by intros _ -> -> ->.
Qed.

Lemma replacementFor_missing_parameter (mapExpr : MappedExpression.t)
    (parameters : Js.Object) :
  reachesParameters mapExpr = true ->
  TemplateProcessor.templateParameters this = Some parameters ->
  Js.getProperty parameters (MappedExpression.mappedKey mapExpr) = None ->
  SinglePass.replacementFor this map mapExpr =
  ([MissingParameter (MappedExpression.mappedKey mapExpr)
      (TemplateContainer.filename container)], Ok SinglePass.Keep).
Proof.
  unfold reachesParameters, SinglePass.replacementFor. fold container.
  destruct (MappedExpression.isIterated mapExpr),
    (MappedExpression.isParameterized mapExpr); try done.
  by intros _ -> ->.
Qed.

(** If the records other than one that resolves all resolve, all do. *)
Lemma resolves_others (mapExpr : MappedExpression.t) :
  resolves this map mapExpr = true ->
  (forall other, other ∈ exprs -> other <> mapExpr ->
                 resolves this map other = true) ->
  Forall (fun each => resolves this map each = true) exprs.
Proof.
  intros Hthis Hothers. apply Forall_forall. intros each Hin.
  destruct (decide (each = mapExpr)) as [->|Hother]; [done | by apply Hothers].
Qed.

End Missing.

(** C2, as the spec has it, fails: the map lacks [age], the record for
    [age] is not optional, and the returned text still holds the placeholder
    at [23, 29); it is not the text with that range removed. *)
Lemma missing_key_counterexample :
  let this := Examples.processor (Examples.greeting false false) in
  let outcome := TemplateProcessor.run (env := Examples.environment) this Examples.ada in
  Examples.ada <> ∅
  /\ Examples.ada !! "age" = None
  /\ TemplateProcessor.console outcome = [MissingKey "age" "example.atmpl"]
  /\ TemplateProcessor.completion outcome = Ok "Hello Ada, you are &{age}!"
  /\ TemplateProcessor.completion outcome <> Ok "Hello Ada, you are !".
Proof.
  split_and!; [apply map_non_empty_singleton | done | by vm_compute
              | by vm_compute | by vm_compute].
Qed.

(** C2 (amended).  When the walk reaches a plain record for a key the map
    lacks, the record being non-optional in a container that is not optional
    by default, it logs exactly one warning for the key, leaves the working
    text as it is (the placeholder is not removed) and goes on with the next
    record.  If no other record is fatal, the run, past its guards, returns a
    string, with one warning for the key per such record; for a template
    with this record alone the returned text is the template text after
    cleanup. *)
Theorem missing_key_warns_and_keeps {env : Environment}
    (this : TemplateProcessor.t) (map : gmap string string)
    (index : nat) (mapExpr : MappedExpression.t) :
  let container := TemplateProcessor.atmplContainer this in
  let exprs := TemplateContainer.mapExprList container in
  let key := MappedExpression.mappedKey mapExpr in
  let warning := MissingKey key (TemplateContainer.filename container) in
  exprs !! index = Some mapExpr ->
  isPlain mapExpr = true ->
  MappedExpression.isOptional mapExpr = false ->
  TemplateContainer.optionalityByDefault container = false ->
  map <> ∅ ->
  map !! key = None ->
  (forall logged working,
     TemplateProcessor.runLoop this map (S index) logged working =
     TemplateProcessor.runLoop this map index (logged ++ [warning]) working)
  /\ (TemplateContainer.skip container = false ->
      TemplateContainer.invalid container = false ->
      (forall other, other ∈ exprs -> other <> mapExpr ->
                     resolves this map other = true) ->
      exists text,
        TemplateProcessor.completion (TemplateProcessor.run this map) = Ok text
        /\ countWarnings (isMissingKey key)
             (TemplateProcessor.console (TemplateProcessor.run this map)) =
           length (filter (fun each => requiresKey key each = true) exprs))
  /\ (TemplateContainer.skip container = false ->
      TemplateContainer.invalid container = false ->
      exprs = [mapExpr] ->
      TemplateProcessor.run this map =
      {| TemplateProcessor.after := this;
         TemplateProcessor.console := [warning];
         TemplateProcessor.completion :=
           Ok (removeIterDec (TemplateContainer.fileContents container)) |}).
Proof.
  intros container exprs key warning Hlookup Hplain Hoptional Hdefault Hmap Hkey.
  pose proof (replacementFor_missing_key this map mapExpr
                Hplain Hoptional Hdefault Hkey) as Hreplacement.
  split_and!.
  - intros logged working.
    rewrite (runLoop_step this map index mapExpr) by done.
    by rewrite processExpr_replacementFor, Hreplacement.
  - intros Hskip Hinvalid Hothers.
    destruct (run_returns this map Hskip Hinvalid Hmap) as [text ->].
    { apply (resolves_others this map mapExpr); [|done].
      unfold resolves. by rewrite Hreplacement. }
    exists text. split; [done|]. simpl.
    rewrite (countWarnings_flat_map this map _ (requiresKey key))
      by (intros each; by apply warningsOf_missing_key).
    by rewrite filter_reverse, length_reverse.
  - intros Hskip Hinvalid Hsingle.
    rewrite (run_single this map mapExpr) by done.
    by rewrite processExpr_replacementFor, Hreplacement.
Qed.

Lemma missing_key_warns_and_keeps_witness :
  let this := Examples.processor (Examples.greeting false false) in
  exists text,
    TemplateProcessor.completion
      (TemplateProcessor.run (env := Examples.environment) this Examples.ada) = Ok text
    /\ countWarnings (isMissingKey "age")
         (TemplateProcessor.console
            (TemplateProcessor.run (env := Examples.environment) this Examples.ada)) = 1.
Proof.
  refine (proj1 (proj2 (missing_key_warns_and_keeps (env := Examples.environment)
            (Examples.processor (Examples.greeting false false)) Examples.ada
            1 (Examples.plain "age" false 23 29)
            eq_refl eq_refl eq_refl eq_refl _ eq_refl)) eq_refl eq_refl _).
  - apply map_non_empty_singleton.
  - intros other Hin Hother.
    apply elem_of_cons in Hin as [->|Hin]; [reflexivity|].
    apply elem_of_cons in Hin as [->|Hin]; [by destruct Hother|].
    by apply elem_of_nil in Hin.
Defined.

(** C7, as the spec has it, fails, in two ways.  Parameters are set and
    [env] is not among them: the run warns, but the returned text still holds
    the placeholder at [4, 11); it is not the text with that range emptied.
    And a name can be absent from the parameters supplied and still be found
    by the property access: for the placeholder of [toString] the run logs
    nothing and writes what the parameters object inherits under that
    name. *)
Lemma missing_parameter_counterexample :
  let outcome :=
    TemplateProcessor.run (env := Examples.environment) Examples.configured
      Examples.ada in
  let inherits :=
    TemplateProcessor.run (env := Examples.environment)
      (TemplateProcessor.setTemplateParameters
         (Examples.processor MoreExamples.inheriting)
         (Some (Js.object {[ "region" := "eu" ]}))) Examples.ada in
  (TemplateProcessor.templateParameters Examples.configured
     = Some (Js.object {[ "region" := "eu" ]})
   /\ Js.own (Js.object {[ "region" := "eu" ]}) !! "env" = None
   /\ TemplateProcessor.console outcome = [MissingParameter "env" "example.atmpl"]
   /\ TemplateProcessor.completion outcome = Ok "env=&{#env};svc=Ada"
   /\ TemplateProcessor.completion outcome <> Ok "env=;svc=Ada")
  /\ (Js.own (Js.object {[ "region" := "eu" ]}) !! "toString" = None
     /\ TemplateProcessor.console inherits = []
     /\ TemplateProcessor.completion inherits
        = Ok "op=function toString() { [native code] };"
     /\ TemplateProcessor.completion inherits <> Ok "op=;").
Proof.
  split; split_and!; by vm_compute.
Qed.

(** C7 (amended).  When the walk reaches a parameterized record for whose
    name the property access on the parameters that were set gives [null] or
    [undefined] (the name is neither supplied with a value nor inherited by
    the parameters object), it logs exactly one warning for the name, leaves
    the working text as it is (the placeholder is not emptied) and goes on
    with the next record.  If no other record is fatal, the run, past its
    guards, returns a string, with one warning for the name per such record;
    for a template with this record alone the returned text is the template
    text after cleanup. *)
Theorem missing_parameter_warns_and_keeps {env : Environment}
    (this : TemplateProcessor.t) (map : gmap string string)
    (parameters : Js.Object)
    (index : nat) (mapExpr : MappedExpression.t) :
  let container := TemplateProcessor.atmplContainer this in
  let exprs := TemplateContainer.mapExprList container in
  let name := MappedExpression.mappedKey mapExpr in
  let warning := MissingParameter name (TemplateContainer.filename container) in
  exprs !! index = Some mapExpr ->
  reachesParameters mapExpr = true ->
  TemplateProcessor.templateParameters this = Some parameters ->
  Js.getProperty parameters name = None ->
  (forall logged working,
     TemplateProcessor.runLoop this map (S index) logged working =
     TemplateProcessor.runLoop this map index (logged ++ [warning]) working)
  /\ (TemplateContainer.skip container = false ->
      TemplateContainer.invalid container = false ->
      map <> ∅ ->
      (forall other, other ∈ exprs -> other <> mapExpr ->
                     resolves this map other = true) ->
      exists text,
        TemplateProcessor.completion (TemplateProcessor.run this map) = Ok text
        /\ countWarnings (isMissingParameter name)
             (TemplateProcessor.console (TemplateProcessor.run this map)) =
           length (filter (fun each => readsParameter name each = true) exprs))
  /\ (TemplateContainer.skip container = false ->
      TemplateContainer.invalid container = false ->
      map <> ∅ ->
      exprs = [mapExpr] ->
      TemplateProcessor.run this map =
      {| TemplateProcessor.after := this;
         TemplateProcessor.console := [warning];
         TemplateProcessor.completion :=
           Ok (removeIterDec (TemplateContainer.fileContents container)) |}).
Proof.
  intros container exprs name warning Hlookup Hreaches Hset Hname.
  pose proof (replacementFor_missing_parameter this map mapExpr parameters
                Hreaches Hset Hname) as Hreplacement.
  split_and!.
  - intros logged working.
    rewrite (runLoop_step this map index mapExpr) by done.
    by rewrite processExpr_replacementFor, Hreplacement.
  - intros Hskip Hinvalid Hmap Hothers.
    destruct (run_returns this map Hskip Hinvalid Hmap) as [text ->].
    { apply (resolves_others this map mapExpr); [|done].
      unfold resolves. by rewrite Hreplacement. }
    exists text. split; [done|]. simpl.
    rewrite (countWarnings_flat_map this map _ (readsParameter name))
      by (intros each; by apply (warningsOf_missing_parameter _ _ _ parameters)).
    by rewrite filter_reverse, length_reverse.
  - intros Hskip Hinvalid Hmap Hsingle.
    rewrite (run_single this map mapExpr) by done.
    by rewrite processExpr_replacementFor, Hreplacement.
Qed.

Lemma missing_parameter_warns_and_keeps_witness :
  exists text,
    TemplateProcessor.completion
      (TemplateProcessor.run (env := Examples.environment) Examples.configured
         Examples.ada) = Ok text
    /\ countWarnings (isMissingParameter "env")
         (TemplateProcessor.console
            (TemplateProcessor.run (env := Examples.environment)
               Examples.configured Examples.ada)) = 1.
Proof.
  refine (proj1 (proj2 (missing_parameter_warns_and_keeps
            (env := Examples.environment) Examples.configured Examples.ada
            (Js.object {[ "region" := "eu" ]}) 0
            (Examples.parameterized "env" 4 11)
            eq_refl eq_refl eq_refl eq_refl)) eq_refl eq_refl _ _).
  - apply map_non_empty_singleton.
  - intros other Hin Hother.
    apply elem_of_cons in Hin as [->|Hin]; [by destruct Hother|].
    apply elem_of_cons in Hin as [->|Hin]; [reflexivity|].
    by apply elem_of_nil in Hin.
Defined.

(** ** Optional keys and iterated expressions *)

Section Silent.
Context {env : Environment}.
Variable this : TemplateProcessor.t.
Variable map : gmap string string.

Let container := TemplateProcessor.atmplContainer this.
Let exprs := TemplateContainer.mapExprList container.



(** Without a declared iteration for the key, the [forEach] leaves
    [result] as it found it. *)
Lemma forEachIterDec_no_match (key : string) (iterDecs : list DeclaredIteration.t)
    (result : option string) :
  Forall (fun iterDec => DeclaredIteration.mappedKey iterDec <> key) iterDecs ->
  TemplateProcessor.forEachIterDec this key iterDecs result = Ok result.
Proof.
  induction 1 as [|iterDec rest Hfirst _ IH]; simpl; [done|].
  by rewrite bool_decide_eq_false_2.
Qed.


End Silent.





(** ** Present values *)

Section Present.
Context {env : Environment}.
Variable this : TemplateProcessor.t.
Variable map : gmap string string.

Let container := TemplateProcessor.atmplContainer this.
Let pipes := TemplateProcessor.pipeFunctionsProcessor this.



End Present.



(** ** Boolean evaluation *)

(** C3, as the spec has it, fails on a key that is present with the empty
    string as its value: the negated expression does not invert the
    comparison, which would give [true]; the answer is [false], as for an
    absent key. *)
Lemma evaluateBoolean_counterexample :
  let map : gmap string string := {[ "K" := "" ]} in
  execMappedExpression (Environment := Examples.environment) "!K"
    = Some (Examples.expression "K" true)
  /\ map !! "K" = Some ""
  /\ TemplateProcessor.evaluateBoolean (env := Examples.environment) "!K" map
     = Ok false
  /\ TemplateProcessor.evaluateBoolean (env := Examples.environment) "!K" map
     <> Ok (negb (bool_decide (Js.toLowerCase "" = "true")
                  || bool_decide (Js.toLowerCase "" = "1"))).
Proof. split_and!; [done | done | by vm_compute | by vm_compute]. Qed.

(** C3 (amended).  [evaluateBoolean] throws the input error when the
    grammar finds no match in the expression.  Otherwise, for the record
    parsed, with key [K] and negation flag [n]: it returns [false] when [K]
    is absent from the map or present with the empty string, whatever [n];
    and for a non-empty value it returns [true] exactly when the value,
    lowered, is ["true"] or ["1"], the answer being inverted when [n] is
    set. *)
Theorem evaluateBoolean_contract {env : Environment} (expression : string)
    (map : gmap string string) :
  (execMappedExpression expression = None ->
     TemplateProcessor.evaluateBoolean expression map
       = Threw (InvalidExpression expression)
     /\ errorKind (InvalidExpression expression) = InputError)
  /\ (forall expr : MappedExpression.t,
        execMappedExpression expression = Some expr ->
        let key := MappedExpression.mappedKey expr in
        let negated := MappedExpression.isNegated expr in
        (map !! key = None ->
           TemplateProcessor.evaluateBoolean expression map = Ok false)
        /\ (map !! key = Some "" ->
             TemplateProcessor.evaluateBoolean expression map = Ok false)
        /\ (forall value : string,
              map !! key = Some value -> value <> "" ->
              exists answer : bool,
                TemplateProcessor.evaluateBoolean expression map = Ok answer
                /\ (answer = true <->
                      if negated
                      then ~ (Js.toLowerCase value = "true"
                              \/ Js.toLowerCase value = "1")
                      else Js.toLowerCase value = "true"
                           \/ Js.toLowerCase value = "1"))).
Proof.
  unfold TemplateProcessor.evaluateBoolean. split.
  - by intros ->.
  - intros expr ->. split_and!.
    + by intros ->.
    + by intros ->.
    + intros value -> Hvalue. simpl.
      rewrite bool_decide_eq_false_2 by done. simpl.
      assert (Htrue : TemplateProcessor.isTrueText value = true <->
                      Js.toLowerCase value = "true" \/ Js.toLowerCase value = "1").
      { unfold TemplateProcessor.isTrueText.
        by rewrite orb_true_iff, !bool_decide_eq_true. }
      destruct (MappedExpression.isNegated expr); eexists; (split; [done|]).
      * rewrite <-Htrue. destruct (TemplateProcessor.isTrueText value); simpl;
          (split; [intros ? ?; congruence | intros Hnot; try done; by destruct Hnot]).
      * done.
Qed.

Lemma evaluateBoolean_contract_witness :
  exists answer : bool,
    TemplateProcessor.evaluateBoolean (env := Examples.environment) "!K"
      {[ "K" := "TRUE" ]} = Ok answer
    /\ (answer = true <->
          ~ (Js.toLowerCase "TRUE" = "true" \/ Js.toLowerCase "TRUE" = "1")).
Proof.
  refine (proj2 (proj2 (proj2 (evaluateBoolean_contract
            (env := Examples.environment) "!K" {[ "K" := "TRUE" ]})
            (Examples.expression "K" true) eq_refl)) "TRUE" eq_refl _).
  discriminate.
Defined.

(** The examples of the description: ["TRUE"] is true, ["0"] is false, an
    absent key is false, with or without negation. *)
Example evaluateBoolean_examples :
  TemplateProcessor.evaluateBoolean (env := Examples.environment) "K"
    {[ "K" := "TRUE" ]} = Ok true
  /\ TemplateProcessor.evaluateBoolean (env := Examples.environment) "K"
       {[ "K" := "0" ]} = Ok false
  /\ TemplateProcessor.evaluateBoolean (env := Examples.environment) "!K"
       {[ "K" := "0" ]} = Ok true
  /\ TemplateProcessor.evaluateBoolean (env := Examples.environment) "K"
       {[ "other" := "1" ]} = Ok false
  /\ TemplateProcessor.evaluateBoolean (env := Examples.environment) "!K"
       {[ "other" := "1" ]} = Ok false
  /\ TemplateProcessor.evaluateBoolean (env := Examples.environment) ""
       {[ "K" := "1" ]} = Threw (InvalidExpression "").
Proof. by vm_compute. Qed.

(** ** The engine on the example templates *)

(** Both keys present: each placeholder gives way to its value, in the
    walk and in the single pass alike. *)
Example run_greeting :
  let outcome :=
    TemplateProcessor.run (env := Examples.environment)
      (Examples.processor (Examples.greeting false false)) Examples.adaLovelace in
  TemplateProcessor.console outcome = []
  /\ TemplateProcessor.completion outcome = Ok "Hello Ada, you are 37!"
  /\ TemplateProcessor.completion
       (SinglePass.run (env := Examples.environment)
          (Examples.processor (Examples.greeting false false)) Examples.adaLovelace)
     = Ok "Hello Ada, you are 37!".
Proof. by vm_compute. Qed.

(** The key [age] missing: kept with a warning when the record is not
    optional, emptied in silence when the record is optional or the
    container is optional by default. *)
Example run_greeting_without_age :
  TemplateProcessor.completion
    (TemplateProcessor.run (env := Examples.environment)
       (Examples.processor (Examples.greeting false false)) Examples.ada)
    = Ok "Hello Ada, you are &{age}!"
  /\ TemplateProcessor.run (env := Examples.environment)
       (Examples.processor (Examples.greeting true false)) Examples.ada
     = {| TemplateProcessor.after := Examples.processor (Examples.greeting true false);
          TemplateProcessor.console := [];
          TemplateProcessor.completion := Ok "Hello Ada, you are !" |}
  /\ TemplateProcessor.run (env := Examples.environment)
       (Examples.processor (Examples.greeting false true)) Examples.ada
     = {| TemplateProcessor.after := Examples.processor (Examples.greeting false true);
          TemplateProcessor.console := [];
          TemplateProcessor.completion := Ok "Hello Ada, you are !" |}.
Proof. by vm_compute. Qed.

(** The ternary on an empty value takes the false branch before the pipes
    run, and the empty string when no false branch was declared. *)
Example run_switch_off :
  TemplateProcessor.completion
    (TemplateProcessor.run (env := Examples.environment)
       (Examples.processor Examples.switch) {[ "flag" := "" ]})
    = Ok "kind: offASDF!!!!"
  /\ TemplateProcessor.completion
       (TemplateProcessor.run (env := Examples.environment)
          (Examples.processor
             (Examples.container "kind: &{flag ? on}"
                [Examples.ternary "flag" "on" None [] 6 18] [] false))
          {[ "flag" := "" ]})
     = Ok "kind: ".
Proof. by vm_compute. Qed.

(** * Further properties of the engine *)

(** ** Comparing runs *)

Section Comparing.
Context {env : Environment}.

(** Loop bodies that agree record by record give walks that agree. *)
Lemma visit_ext (this this' : TemplateProcessor.t) (map map' : gmap string string)
    (visited visited' : list MappedExpression.t) :
  Forall2 (fun mapExpr mapExpr' => forall working,
             TemplateProcessor.processExpr this map mapExpr working =
             TemplateProcessor.processExpr this' map' mapExpr' working)
    visited visited' ->
  forall logged working,
    Walk.visit this map visited logged working =
    Walk.visit this' map' visited' logged working.
Proof.
  induction 1 as [|mapExpr mapExpr' rest rest' Hfirst _ IH];
    intros logged working; simpl; [done|].
  rewrite Hfirst.
  by destruct (TemplateProcessor.processExpr this' map' mapExpr' working)
    as [warnings [working'|e]].
Qed.

(** Two processors over the same text and flags, whose records agree one
    by one on what the loop body does, give the same result on maps that
    are both empty or both non-empty. *)
Lemma run_ext (this this' : TemplateProcessor.t) (map map' : gmap string string) :
  let container := TemplateProcessor.atmplContainer this in
  let container' := TemplateProcessor.atmplContainer this' in
  TemplateContainer.skip container = TemplateContainer.skip container' ->
  TemplateContainer.invalid container = TemplateContainer.invalid container' ->
  TemplateContainer.fileContents container
    = TemplateContainer.fileContents container' ->
  (map = ∅ <-> map' = ∅) ->
  Forall2 (fun mapExpr mapExpr' => forall working,
             TemplateProcessor.processExpr this map mapExpr working =
             TemplateProcessor.processExpr this' map' mapExpr' working)
    (TemplateContainer.mapExprList container)
    (TemplateContainer.mapExprList container') ->
  sameResult (TemplateProcessor.run this map) (TemplateProcessor.run this' map').
Proof.
  intros container container' Hskip Hinvalid Htext Hempty Hrecords.
  unfold sameResult, TemplateProcessor.run.
  fold container container'. rewrite <-Hskip, <-Hinvalid, <-Htext.
  destruct (TemplateContainer.skip container); [done|].
  destruct (TemplateContainer.invalid container); [done|].
  destruct (decide (map = ∅)) as [Hmap|Hmap].
  { rewrite !bool_decide_eq_true_2; [done|..]; apply map_size_empty_iff; tauto. }
  rewrite !bool_decide_eq_false_2 by (rewrite map_size_empty_iff; tauto).
  rewrite !runLoop_visit, !firstn_all by done.
  rewrite (visit_ext this this' map map' _
             (reverse (TemplateContainer.mapExprList container')))
    by (by apply Forall2_reverse).
  by destruct (Walk.visit _ _ _ _ _) as [logged [working|e]].
Qed.

(** One processor, two maps. *)
Lemma outcome_eq (a b : TemplateProcessor.Outcome) :
  TemplateProcessor.after a = TemplateProcessor.after b ->
  sameResult a b -> a = b.
Proof. destruct a, b. intros ? [? ?]. by simplify_eq/=. Qed.

End Comparing.

(** ** What a run reads *)

Section Reads.
Context {env : Environment}.
Variable this : TemplateProcessor.t.

Let container := TemplateProcessor.atmplContainer this.
Let exprs := TemplateContainer.mapExprList container.

(** The loop body looks the map up at the key of a plain record and
    nowhere else. *)
Lemma processExpr_map_frame (map map' : gmap string string)
    (mapExpr : MappedExpression.t) (working : string) :
  (isPlain mapExpr = true ->
   map !! MappedExpression.mappedKey mapExpr
   = map' !! MappedExpression.mappedKey mapExpr) ->
  TemplateProcessor.processExpr this map mapExpr working =
  TemplateProcessor.processExpr this map' mapExpr working.
Proof.
  unfold isPlain, TemplateProcessor.processExpr.
  destruct (MappedExpression.isIterated mapExpr); [done|].
  destruct (MappedExpression.isParameterized mapExpr); [done|].
  intros Hsame. by rewrite Hsame.
Qed.

Lemma forEachIterDec_setTemplateParameters
    (parameters : option Js.Object) (key : string)
    (iterDecs : list DeclaredIteration.t) (result : option string) :
  TemplateProcessor.forEachIterDec
    (TemplateProcessor.setTemplateParameters this parameters) key iterDecs result
  = TemplateProcessor.forEachIterDec this key iterDecs result.
Proof.
  revert result. induction iterDecs as [|iterDec rest IH]; intros result; simpl;
    [done|].
  case_bool_decide; [|done].
  by destruct (TemplateFunctionsProcessor.invoke _ _).
Qed.

(** The loop body reads the parameters at the name of a record on the
    parameterized branch and nowhere else. *)
Lemma processExpr_parameters_frame (parameters : option Js.Object)
    (map : gmap string string) (mapExpr : MappedExpression.t) (working : string) :
  (reachesParameters mapExpr = true ->
   exists given given',
     TemplateProcessor.templateParameters this = Some given
     /\ parameters = Some given'
     /\ Js.getProperty given (MappedExpression.mappedKey mapExpr)
        = Js.getProperty given' (MappedExpression.mappedKey mapExpr)) ->
  TemplateProcessor.processExpr
    (TemplateProcessor.setTemplateParameters this parameters) map mapExpr working
  = TemplateProcessor.processExpr this map mapExpr working.
Proof.
  unfold reachesParameters, TemplateProcessor.processExpr,
    TemplateProcessor.retrieveValueFromIterDec.
  rewrite forEachIterDec_setTemplateParameters. simpl.
  destruct (MappedExpression.isIterated mapExpr); [done|].
  destruct (MappedExpression.isParameterized mapExpr); [|done].
  intros Hsame. destruct (Hsame eq_refl) as (given & given' & -> & -> & ->).
  done.
Qed.

End Reads.

(** X1.  A run reads the data map only at the keys of the plain records of
    the template: two non-empty maps that agree on those keys give the same
    outcome, whatever else they hold. *)
Theorem run_reads_map_at_plain_keys {env : Environment}
    (this : TemplateProcessor.t) (map map' : gmap string string) :
  map <> ∅ -> map' <> ∅ ->
  (forall mapExpr,
     mapExpr ∈ TemplateContainer.mapExprList (TemplateProcessor.atmplContainer this) ->
     isPlain mapExpr = true ->
     map !! MappedExpression.mappedKey mapExpr
     = map' !! MappedExpression.mappedKey mapExpr) ->
  TemplateProcessor.run this map = TemplateProcessor.run this map'.
Proof.
  intros Hmap Hmap' Hagree. apply outcome_eq; [by rewrite !run_after|].
  apply run_ext; try done; try tauto.
  apply Forall_Forall2_diag, Forall_forall. intros mapExpr Hin working.
  apply processExpr_map_frame. by apply Hagree.
Qed.

Lemma run_reads_map_at_plain_keys_witness :
  TemplateProcessor.run (env := Examples.environment)
    (Examples.processor (Examples.greeting false false))
    (<["city" := "London"]> Examples.adaLovelace)
  = TemplateProcessor.run (env := Examples.environment)
      (Examples.processor (Examples.greeting false false)) Examples.adaLovelace.
Proof.
  apply (run_reads_map_at_plain_keys (env := Examples.environment)).
  - apply insert_non_empty.
  - apply insert_non_empty.
  - intros mapExpr Hin _.
    apply elem_of_cons in Hin as [->|Hin]; [reflexivity|].
    apply elem_of_cons in Hin as [->|Hin]; [reflexivity|].
    by apply elem_of_nil in Hin.
Defined.

(** X2.  A run reads the template parameters only at the names of the
    records on the parameterized branch.  With no such record the parameters
    do not matter at all, set or not; with parameters set, replacing them by
    others that agree on those names changes nothing a caller sees. *)
Theorem run_reads_parameters_at_names {env : Environment}
    (this : TemplateProcessor.t) (map : gmap string string) :
  let exprs :=
    TemplateContainer.mapExprList (TemplateProcessor.atmplContainer this) in
  (Forall (fun mapExpr => reachesParameters mapExpr = false) exprs ->
   forall parameters,
     sameResult
       (TemplateProcessor.run
          (TemplateProcessor.setTemplateParameters this parameters) map)
       (TemplateProcessor.run this map))
  /\ (forall given given',
        TemplateProcessor.templateParameters this = Some given ->
        (forall mapExpr, mapExpr ∈ exprs -> reachesParameters mapExpr = true ->
           Js.getProperty given (MappedExpression.mappedKey mapExpr)
           = Js.getProperty given' (MappedExpression.mappedKey mapExpr)) ->
        sameResult
          (TemplateProcessor.run
             (TemplateProcessor.setTemplateParameters this (Some given')) map)
          (TemplateProcessor.run this map)).
Proof.
  intros exprs. split.
  - intros Hnone parameters. apply run_ext; try done.
    apply Forall_Forall2_diag, Forall_forall. intros mapExpr Hin working.
    apply processExpr_parameters_frame. intros Hreaches.
    rewrite Forall_forall in Hnone. by rewrite (Hnone _ Hin) in Hreaches.
  - intros given given' Hset Hagree. apply run_ext; try done.
    apply Forall_Forall2_diag, Forall_forall. intros mapExpr Hin working.
    apply processExpr_parameters_frame. intros Hreaches.
    exists given, given'. split_and!; [done | done | by apply Hagree].
Qed.

Lemma run_reads_parameters_at_names_witness :
  sameResult
    (TemplateProcessor.run (env := Examples.environment)
       (TemplateProcessor.setTemplateParameters
          (Examples.processor (Examples.greeting false false))
          (Some (Js.object {[ "region" := "eu" ]}))) Examples.ada)
    (TemplateProcessor.run (env := Examples.environment)
       (Examples.processor (Examples.greeting false false)) Examples.ada).
Proof.
  apply (proj1 (run_reads_parameters_at_names (env := Examples.environment)
                  (Examples.processor (Examples.greeting false false)) Examples.ada)).
  apply Forall_cons. split; [reflexivity|].
  apply Forall_cons. split; [reflexivity | apply Forall_nil_2].
Defined.

(** ** Parameters *)

Section Parameters.
Context {env : Environment}.
Variable this : TemplateProcessor.t.
Variable map : gmap string string.

Let container := TemplateProcessor.atmplContainer this.
Let exprs := TemplateContainer.mapExprList container.

(** A state error can only come out of a processor without parameters. *)
Lemma state_error_without_parameters :
  throwsStateError (TemplateProcessor.run this map) ->
  TemplateProcessor.templateParameters this = None.
Proof.
  intros (e & Hthrown & Hkind). unfold TemplateProcessor.run in Hthrown.
  fold container in Hthrown.
  destruct (TemplateContainer.skip container) eqn:Hskip; [done|].
  destruct (TemplateContainer.invalid container) eqn:Hinvalid;
    [by simplify_eq/=|].
  case_bool_decide as Hsize; [by simplify_eq/=|].
  rewrite runLoop_visit, firstn_all, visit_resolveAll in Hthrown by done.
  destruct (SinglePass.resolveAll _ _ _) as [warnings [edits|e']] eqn:Hresolve;
    simplify_eq/=.
  apply resolveAll_threw in Hresolve as (_ & culprit & _ & _ & _ & Hculprit).
  by destruct (replacementFor_state_error _ _ _ _ Hculprit Hkind).
Qed.

Lemma replacementFor_parameter_present (mapExpr : MappedExpression.t)
    (parameters : Js.Object) (value : string) :
  reachesParameters mapExpr = true ->
  TemplateProcessor.templateParameters this = Some parameters ->
  Js.getProperty parameters (MappedExpression.mappedKey mapExpr) = Some value ->
  SinglePass.replacementFor this map mapExpr =
  ([], Ok (SinglePass.Rewrite (Some value))).
Proof.
  unfold reachesParameters, SinglePass.replacementFor.
  destruct (MappedExpression.isIterated mapExpr),
    (MappedExpression.isParameterized mapExpr); try done.
  by intros _ -> ->.
Qed.

End Parameters.

(** X3.  Once parameters are set, [run] never throws the state error,
    whatever the template, the parameters and the map. *)
Theorem run_with_parameters_never_state_error {env : Environment}
    (this : TemplateProcessor.t) (parameters : Js.Object)
    (map : gmap string string) :
  ~ throwsStateError
      (TemplateProcessor.run
         (TemplateProcessor.setTemplateParameters this (Some parameters)) map).
Proof. by intros Hthrown%state_error_without_parameters. Qed.

(** X4.  When the walk reaches a parameterized record for whose name the
    property access on the parameters gives a value, it writes that value
    into the record's range, as it is: the data map is not consulted, the
    optional marker, the ternary branches and the pipe chain of the record
    play no part, and nothing is logged. *)
Theorem parameter_present_rewrites {env : Environment}
    (this : TemplateProcessor.t) (map : gmap string string)
    (parameters : Js.Object) (index : nat)
    (mapExpr : MappedExpression.t) (value : string) :
  let container := TemplateProcessor.atmplContainer this in
  let exprs := TemplateContainer.mapExprList container in
  let start := MappedExpression.startIndex mapExpr in
  let stop := MappedExpression.endIndex mapExpr in
  exprs !! index = Some mapExpr ->
  reachesParameters mapExpr = true ->
  TemplateProcessor.templateParameters this = Some parameters ->
  Js.getProperty parameters (MappedExpression.mappedKey mapExpr) = Some value ->
  (forall logged working,
     TemplateProcessor.runLoop this map (S index) logged working =
     TemplateProcessor.runLoop this map index logged
       (Js.substringTo working start +:+ value +:+ Js.substringFrom working stop))
  /\ (TemplateContainer.skip container = false ->
      TemplateContainer.invalid container = false ->
      map <> ∅ ->
      exprs = [mapExpr] ->
      TemplateProcessor.run this map =
      {| TemplateProcessor.after := this;
         TemplateProcessor.console := [];
         TemplateProcessor.completion :=
           Ok (removeIterDec
                 (Js.substringTo (TemplateContainer.fileContents container) start
                  +:+ value +:+
                  Js.substringFrom (TemplateContainer.fileContents container) stop)) |}).
Proof.
  intros container exprs start stop Hlookup Hreaches Hset Hname.
  pose proof (replacementFor_parameter_present this map mapExpr parameters value
                Hreaches Hset Hname) as Hreplacement.
  split.
  - intros logged working.
    rewrite (runLoop_step this map index mapExpr) by done.
    by rewrite processExpr_replacementFor, Hreplacement, app_nil_r.
  - intros Hskip Hinvalid Hmap Hsingle.
    rewrite (run_single this map mapExpr) by done.
    by rewrite processExpr_replacementFor, Hreplacement.
Qed.

Lemma parameter_present_rewrites_witness :
  let this :=
    TemplateProcessor.setTemplateParameters (Examples.processor MoreExamples.banner)
      (Some (Js.object {[ "env" := "prod" ]})) in
  TemplateProcessor.run (env := Examples.environment) this {[ "env" := "ignored" ]}
  = {| TemplateProcessor.after := this;
       TemplateProcessor.console := [];
       TemplateProcessor.completion := Ok "env=prod;" |}.
Proof.
  refine (proj2 (parameter_present_rewrites (env := Examples.environment)
           (TemplateProcessor.setTemplateParameters
              (Examples.processor MoreExamples.banner) (Some (Js.object {[ "env" := "prod" ]})))
           {[ "env" := "ignored" ]} (Js.object {[ "env" := "prod" ]}) 0
           (Examples.parameterized "env" 4 11) "prod"
           eq_refl eq_refl eq_refl eq_refl) eq_refl eq_refl _ eq_refl).
  apply map_non_empty_singleton.
Defined.

(** ** Fatal records and the console *)

Section Halting.
Context {env : Environment}.
Variable this : TemplateProcessor.t.
Variable map : gmap string string.

(** A record that throws has logged nothing. *)
Lemma replacementFor_fatal_silent (mapExpr : MappedExpression.t) (e : Error) :
  (SinglePass.replacementFor this map mapExpr).2 = Threw e ->
  (SinglePass.replacementFor this map mapExpr).1 = [].
Proof.
  unfold SinglePass.replacementFor.
  destruct (MappedExpression.isIterated mapExpr).
  { by destruct (TemplateProcessor.retrieveValueFromIterDec _ _). }
  destruct (MappedExpression.isParameterized mapExpr).
  { destruct (TemplateProcessor.templateParameters this) as [parameters|]; [|done].
    by destruct (Js.getProperty parameters _). }
  destruct (map !! _) as [value|].
  - by destruct (PipeFunctionsProcessor.invoke _ _ _).
  - by destruct (_ || _).
Qed.

Lemma resolveAll_halts (before later : list MappedExpression.t)
    (mapExpr : MappedExpression.t) (e : Error) :
  Forall (fun earlier => resolves this map earlier = true) before ->
  (SinglePass.replacementFor this map mapExpr).2 = Threw e ->
  SinglePass.resolveAll this map (before ++ mapExpr :: later) =
  (flat_map (warningsOf this map) before, Threw e).
Proof.
  intros Hbefore Hfatal. rewrite resolveAll_app.
  destruct (resolveAll_resolves _ _ _ Hbefore) as [edits ->]. simpl.
  pose proof (replacementFor_fatal_silent _ _ Hfatal) as Hsilent.
  destruct (SinglePass.replacementFor this map mapExpr) as [ws [edit|e']];
    simplify_eq/=.
  by rewrite app_nil_r.
Qed.

(** A list of records that log nothing logs nothing, fatal or not. *)
Lemma resolveAll_silent (visited : list MappedExpression.t) :
  Forall (fun mapExpr => warningsOf this map mapExpr = []) visited ->
  (SinglePass.resolveAll this map visited).1 = [].
Proof.
  induction 1 as [|mapExpr rest Hfirst _ IH]; simpl; [done|].
  unfold warningsOf in Hfirst.
  destruct (SinglePass.replacementFor this map mapExpr) as [ws [edit|e]];
    simpl in *; [|done].
  destruct (SinglePass.resolveAll this map rest) as [ws' [edits|e]];
    simpl in *; by subst.
Qed.

End Halting.

(** X5.  The first record, counted from the end of the list, that does not
    resolve ends the run with its error: no string is returned, the console
    holds the warnings of the records after it, last record first, and the
    records before it in the list are never looked at. *)
Theorem fatal_record_halts {env : Environment}
    (this : TemplateProcessor.t) (map : gmap string string)
    (front back : list MappedExpression.t) (mapExpr : MappedExpression.t)
    (e : Error) :
  let container := TemplateProcessor.atmplContainer this in
  TemplateContainer.skip container = false ->
  TemplateContainer.invalid container = false ->
  map <> ∅ ->
  TemplateContainer.mapExprList container = front ++ mapExpr :: back ->
  Forall (fun later => resolves this map later = true) back ->
  (forall working,
     (TemplateProcessor.processExpr this map mapExpr working).2 = Threw e) ->
  TemplateProcessor.run this map =
  {| TemplateProcessor.after := this;
     TemplateProcessor.console := flat_map (warningsOf this map) (reverse back);
     TemplateProcessor.completion := Threw e |}.
Proof.
  intros container Hskip Hinvalid Hmap Hexprs Hback Hfatal.
  rewrite run_past_guards by done. fold container.
  rewrite Hexprs, reverse_app, reverse_cons, <-(assoc_L (++)). simpl.
  rewrite (resolveAll_halts this map _ _ _ e); [done | by apply Forall_reverse |].
  specialize (Hfatal ""). rewrite processExpr_replacementFor in Hfatal.
  destruct (SinglePass.replacementFor this map mapExpr) as [ws [edit|e']];
    by simplify_eq/=.
Qed.

Lemma fatal_record_halts_witness :
  TemplateProcessor.run (env := Examples.environment)
    (Examples.processor Examples.shouting) Examples.ada =
  {| TemplateProcessor.after := Examples.processor Examples.shouting;
     TemplateProcessor.console := [];
     TemplateProcessor.completion := Threw (FunctionNotFound "shout") |}.
Proof.
  apply (fatal_record_halts (env := Examples.environment)
           (Examples.processor Examples.shouting) Examples.ada
           [Examples.parameterized "env" 4 11] []
           (Examples.piped "name" ["shout"] 16 30) (FunctionNotFound "shout")).
  - reflexivity.
  - reflexivity.
  - apply map_non_empty_singleton.
  - reflexivity.
  - apply Forall_nil_2.
  - intros working. reflexivity.
Defined.

(** X6.  Warnings come out in the reverse of the template order: when two
    plain, non-optional records have keys the map lacks, in a run whose
    records all resolve, the warning for the record further down the
    template is logged before the warning for the record further up. *)
Theorem console_descending {env : Environment}
    (this : TemplateProcessor.t) (map : gmap string string)
    (front middle back : list MappedExpression.t)
    (upper lower : MappedExpression.t) :
  let container := TemplateProcessor.atmplContainer this in
  let name := TemplateContainer.filename container in
  TemplateContainer.skip container = false ->
  TemplateContainer.invalid container = false ->
  TemplateContainer.optionalityByDefault container = false ->
  map <> ∅ ->
  TemplateContainer.mapExprList container
    = front ++ upper :: middle ++ lower :: back ->
  Forall (fun mapExpr => resolves this map mapExpr = true)
    (TemplateContainer.mapExprList container) ->
  isPlain upper = true -> MappedExpression.isOptional upper = false ->
  map !! MappedExpression.mappedKey upper = None ->
  isPlain lower = true -> MappedExpression.isOptional lower = false ->
  map !! MappedExpression.mappedKey lower = None ->
  exists first between last,
    TemplateProcessor.console (TemplateProcessor.run this map) =
    first ++ MissingKey (MappedExpression.mappedKey lower) name
      :: between ++ MissingKey (MappedExpression.mappedKey upper) name :: last.
Proof.
  intros container name Hskip Hinvalid Hdefault Hmap Hexprs Hresolve
    Hplain Hoptional Hkey Hplain' Hoptional' Hkey'.
  destruct (run_returns this map Hskip Hinvalid Hmap Hresolve) as [text ->].
  simpl. fold container. rewrite Hexprs.
  rewrite reverse_app, reverse_cons, reverse_app, reverse_cons.
  rewrite <-!(assoc_L (++)). simpl.
  rewrite !flat_map_app. simpl.
  assert (Hlower : warningsOf this map lower =
                   [MissingKey (MappedExpression.mappedKey lower) name]).
  { unfold warningsOf. by rewrite replacementFor_missing_key. }
  assert (Hupper : warningsOf this map upper =
                   [MissingKey (MappedExpression.mappedKey upper) name]).
  { unfold warningsOf. by rewrite replacementFor_missing_key. }
  rewrite Hlower, flat_map_app. simpl. rewrite Hupper. simpl.
  by eexists _, _, _.
Qed.

Lemma console_descending_witness :
  exists first between last,
    TemplateProcessor.console
      (TemplateProcessor.run (env := Examples.environment)
         (Examples.processor (Examples.greeting false false))
         {[ "city" := "London" ]}) =
    first ++ MissingKey "age" "example.atmpl"
      :: between ++ MissingKey "name" "example.atmpl" :: last.
Proof.
  apply (console_descending (env := Examples.environment)
           (Examples.processor (Examples.greeting false false))
           {[ "city" := "London" ]} [] [] []
           (Examples.plain "name" false 6 13) (Examples.plain "age" false 23 29)).
  - reflexivity.
  - reflexivity.
  - reflexivity.
  - apply map_non_empty_singleton.
  - reflexivity.
  - apply Forall_cons. split; [reflexivity|].
    apply Forall_cons. split; [reflexivity | apply Forall_nil_2].
  - reflexivity.
  - reflexivity.
  - reflexivity.
  - reflexivity.
  - reflexivity.
  - reflexivity.
Defined.

(** X7.  Warnings only ever come from missing keys and missing parameters:
    when the map holds the key of every plain record and the parameters, if
    any are set, give a value for the name of every record on the
    parameterized branch, the console of the run is empty, whether the run
    returns or throws. *)
Theorem complete_inputs_no_warnings {env : Environment}
    (this : TemplateProcessor.t) (map : gmap string string) :
  let exprs :=
    TemplateContainer.mapExprList (TemplateProcessor.atmplContainer this) in
  (forall mapExpr, mapExpr ∈ exprs -> isPlain mapExpr = true ->
     is_Some (map !! MappedExpression.mappedKey mapExpr)) ->
  (forall mapExpr given, mapExpr ∈ exprs -> reachesParameters mapExpr = true ->
     TemplateProcessor.templateParameters this = Some given ->
     is_Some (Js.getProperty given (MappedExpression.mappedKey mapExpr))) ->
  TemplateProcessor.console (TemplateProcessor.run this map) = [].
Proof.
  intros exprs Hkeys Hnames.
  destruct (TemplateContainer.skip (TemplateProcessor.atmplContainer this))
    eqn:Hskip.
  { unfold TemplateProcessor.run. by rewrite Hskip. }
  destruct (TemplateContainer.invalid (TemplateProcessor.atmplContainer this))
    eqn:Hinvalid.
  { unfold TemplateProcessor.run. by rewrite Hskip, Hinvalid. }
  destruct (decide (map = ∅)) as [->|Hmap].
  { unfold TemplateProcessor.run. rewrite Hskip, Hinvalid.
    by rewrite bool_decide_eq_true_2 by apply map_size_empty. }
  rewrite run_past_guards by done.
  assert (Hsilent : (SinglePass.resolveAll this map (reverse exprs)).1 = []).
  { apply resolveAll_silent, Forall_reverse, Forall_forall.
    intros mapExpr Hin. specialize (Hkeys mapExpr Hin).
    specialize (fun given => Hnames mapExpr given Hin).
    unfold warningsOf, SinglePass.replacementFor.
    unfold isPlain, reachesParameters in *.
    destruct (MappedExpression.isIterated mapExpr).
    { by destruct (TemplateProcessor.retrieveValueFromIterDec _ _). }
    destruct (MappedExpression.isParameterized mapExpr).
    - destruct (TemplateProcessor.templateParameters this) as [given|]; [|done].
      by destruct (Hnames given eq_refl eq_refl) as [value ->].
    - destruct (Hkeys eq_refl) as [value ->].
      by destruct (PipeFunctionsProcessor.invoke _ _ _). }
  fold exprs.
  by destruct (SinglePass.resolveAll this map (reverse exprs))
    as [warnings [edits|e]]; simpl in *; subst.
Qed.

Lemma complete_inputs_no_warnings_witness :
  TemplateProcessor.console
    (TemplateProcessor.run (env := Examples.environment)
       (Examples.processor Examples.shouting) Examples.ada) = [].
Proof.
  apply (complete_inputs_no_warnings (env := Examples.environment)).
  - intros mapExpr Hin Hplain.
    apply elem_of_cons in Hin as [->|Hin]; [discriminate Hplain|].
    apply elem_of_cons in Hin as [->|Hin]; [by eexists|].
    by apply elem_of_nil in Hin.
  - intros mapExpr given _ _ Hset. discriminate Hset.
Defined.

(** ** Ternaries and optionality *)

Section Flags.
Context {env : Environment}.
Variable this : TemplateProcessor.t.

Let container := TemplateProcessor.atmplContainer this.

(** The [forEach] over the declared iterations only needs the template
    function processor of the processor it runs in. *)
Lemma forEachIterDec_ext (this' : TemplateProcessor.t) (key : string)
    (iterDecs : list DeclaredIteration.t) (result : option string) :
  TemplateProcessor.tmplFunctionsProcessor this'
    = TemplateProcessor.tmplFunctionsProcessor this ->
  TemplateProcessor.forEachIterDec this' key iterDecs result
  = TemplateProcessor.forEachIterDec this key iterDecs result.
Proof.
  intros Hsame. revert result.
  induction iterDecs as [|iterDec rest IH]; intros result; simpl; [done|].
  rewrite Hsame. case_bool_decide; [|done].
  by destruct (TemplateFunctionsProcessor.invoke _ _).
Qed.

(** On a ternary record the looked-up value is only tested for
    emptiness. *)
Lemma processExpr_ternary (map map' : gmap string string)
    (mapExpr : MappedExpression.t) (value value' working : string) :
  MappedExpression.isTernary mapExpr = true ->
  map !! MappedExpression.mappedKey mapExpr = Some value ->
  map' !! MappedExpression.mappedKey mapExpr = Some value' ->
  value <> "" -> value' <> "" ->
  TemplateProcessor.processExpr this map mapExpr working =
  TemplateProcessor.processExpr this map' mapExpr working.
Proof.
  intros Hternary Hvalue Hvalue' Hfull Hfull'.
  unfold TemplateProcessor.processExpr.
  rewrite Hternary, Hvalue, Hvalue'.
  by rewrite !bool_decide_eq_false_2 by done.
Qed.

(** With the key in the map, the optional marker and the container's
    default are not looked at. *)
Lemma processExpr_present_optionality (optionalByDefault : bool)
    (exprs : list MappedExpression.t) (map : gmap string string)
    (mapExpr : MappedExpression.t) (working : string) :
  (isPlain mapExpr = true ->
   is_Some (map !! MappedExpression.mappedKey mapExpr)) ->
  TemplateProcessor.processExpr
    (Variation.withContainer this
       (Variation.withRecords container exprs optionalByDefault))
    map mapExpr working
  = TemplateProcessor.processExpr this map mapExpr working.
Proof.
  unfold isPlain, TemplateProcessor.processExpr,
    TemplateProcessor.retrieveValueFromIterDec.
  rewrite (forEachIterDec_ext (Variation.withContainer _ _)) by done. simpl.
  fold container.
  destruct (MappedExpression.isIterated mapExpr); [done|].
  destruct (MappedExpression.isParameterized mapExpr); [done|].
  intros Hpresent. by destruct (Hpresent eq_refl) as [value ->].
Qed.

(** In a container that is optional by default, a record behaves as the
    same record marked optional does in a container that is not. *)
Lemma processExpr_markOptional (exprs : list MappedExpression.t)
    (map : gmap string string) (mapExpr : MappedExpression.t) (working : string) :
  TemplateContainer.optionalityByDefault container = true ->
  TemplateProcessor.processExpr
    (Variation.withContainer this (Variation.withRecords container exprs false))
    map (Variation.markOptional mapExpr) working
  = TemplateProcessor.processExpr this map mapExpr working.
Proof.
  intros Hdefault.
  unfold TemplateProcessor.processExpr,
    TemplateProcessor.retrieveValueFromIterDec.
  rewrite (forEachIterDec_ext (Variation.withContainer _ _)) by done. simpl.
  fold container. rewrite Hdefault.
  destruct (MappedExpression.isIterated mapExpr); [done|].
  destruct (MappedExpression.isParameterized mapExpr); [done|].
  destruct (map !! _) as [value|]; [done|].
  by rewrite andb_false_r.
Qed.

End Flags.

(** X8.  A key used only by ternary records is only tested for emptiness:
    replacing its non-empty value by any other non-empty value leaves the
    whole outcome of the run as it was. *)
Theorem ternary_only_tests_emptiness {env : Environment}
    (this : TemplateProcessor.t) (map : gmap string string)
    (key value value' : string) :
  map !! key = Some value ->
  value <> "" -> value' <> "" ->
  (forall mapExpr,
     mapExpr ∈ TemplateContainer.mapExprList (TemplateProcessor.atmplContainer this) ->
     isPlain mapExpr = true ->
     MappedExpression.mappedKey mapExpr = key ->
     MappedExpression.isTernary mapExpr = true) ->
  TemplateProcessor.run this (<[key := value']> map) = TemplateProcessor.run this map.
Proof.
  intros Hvalue Hfull Hfull' Hternary.
  apply outcome_eq; [by rewrite !run_after|].
  apply run_ext; try done.
  { split; [by intros ?%insert_non_empty | intros ->; by rewrite lookup_empty in Hvalue]. }
  apply Forall_Forall2_diag, Forall_forall. intros mapExpr Hin working.
  destruct (isPlain mapExpr) eqn:Hplain;
    [|apply processExpr_map_frame; congruence].
  destruct (decide (MappedExpression.mappedKey mapExpr = key)) as [Hkey|Hkey].
  - apply (processExpr_ternary this _ _ _ value' value); try done.
    + by apply Hternary.
    + by rewrite Hkey, lookup_insert_eq.
    + by rewrite Hkey.
  - apply processExpr_map_frame. intros _. by rewrite lookup_insert_ne.
Qed.

Lemma ternary_only_tests_emptiness_witness :
  TemplateProcessor.run (env := Examples.environment)
    (Examples.processor Examples.switch) (<["flag" := "yes"]> {[ "flag" := "x" ]})
  = TemplateProcessor.run (env := Examples.environment)
      (Examples.processor Examples.switch) {[ "flag" := "x" ]}.
Proof.
  apply (ternary_only_tests_emptiness (env := Examples.environment)
           (Examples.processor Examples.switch) {[ "flag" := "x" ]}
           "flag" "x" "yes").
  - reflexivity.
  - discriminate.
  - discriminate.
  - intros mapExpr Hin _ _.
    apply elem_of_cons in Hin as [->|Hin]; [reflexivity|].
    by apply elem_of_nil in Hin.
Defined.

(** X9.  Optionality by default is the same as marking every record
    optional: a container with the default set and the same container with
    the default cleared and every record marked optional give the same
    warnings and the same result on every map. *)
Theorem optional_by_default_marks_all {env : Environment}
    (this : TemplateProcessor.t) (map : gmap string string) :
  let container := TemplateProcessor.atmplContainer this in
  TemplateContainer.optionalityByDefault container = true ->
  sameResult
    (TemplateProcessor.run
       (Variation.withContainer this (Variation.allOptional container)) map)
    (TemplateProcessor.run this map).
Proof.
  intros container Hdefault. apply run_ext; try done. simpl.
  apply Forall2_fmap_l, Forall_Forall2_diag, Forall_forall.
  intros mapExpr _ working. by apply processExpr_markOptional.
Qed.

Lemma optional_by_default_marks_all_witness :
  sameResult
    (TemplateProcessor.run (env := Examples.environment)
       (Variation.withContainer (Examples.processor (Examples.greeting false true))
          (Variation.allOptional (Examples.greeting false true))) Examples.ada)
    (TemplateProcessor.run (env := Examples.environment)
       (Examples.processor (Examples.greeting false true)) Examples.ada).
Proof.
  apply (optional_by_default_marks_all (env := Examples.environment)
           (Examples.processor (Examples.greeting false true)) Examples.ada).
  reflexivity.
Defined.

(** X10.  Optionality only matters for missing keys: when the map holds the
    key of every plain record, switching the container's optionality by
    default on or off changes neither the warnings nor the result. *)
Theorem optionality_irrelevant_when_present {env : Environment}
    (this : TemplateProcessor.t) (map : gmap string string)
    (optionalByDefault : bool) :
  let container := TemplateProcessor.atmplContainer this in
  (forall mapExpr,
     mapExpr ∈ TemplateContainer.mapExprList container ->
     isPlain mapExpr = true ->
     is_Some (map !! MappedExpression.mappedKey mapExpr)) ->
  sameResult
    (TemplateProcessor.run
       (Variation.withContainer this
          (Variation.withOptionalityByDefault container optionalByDefault)) map)
    (TemplateProcessor.run this map).
Proof.
  intros container Hpresent. apply run_ext; try done. simpl.
  apply Forall_Forall2_diag, Forall_forall. intros mapExpr Hin working.
  apply processExpr_present_optionality. by apply Hpresent.
Qed.

Lemma optionality_irrelevant_when_present_witness :
  sameResult
    (TemplateProcessor.run (env := Examples.environment)
       (Variation.withContainer (Examples.processor (Examples.greeting false false))
          (Variation.withOptionalityByDefault (Examples.greeting false false) true))
       Examples.adaLovelace)
    (TemplateProcessor.run (env := Examples.environment)
       (Examples.processor (Examples.greeting false false)) Examples.adaLovelace).
Proof.
  apply (optionality_irrelevant_when_present (env := Examples.environment)
           (Examples.processor (Examples.greeting false false))
           Examples.adaLovelace true).
  intros mapExpr Hin _.
  apply elem_of_cons in Hin as [->|Hin]; [by eexists|].
  apply elem_of_cons in Hin as [->|Hin]; [by eexists|].
  by apply elem_of_nil in Hin.
Defined.

(** ** Declared iterations *)

Section Iterations.
Variable this : TemplateProcessor.t.
Variable key : string.

Let invoke :=
  TemplateFunctionsProcessor.invoke (TemplateProcessor.tmplFunctionsProcessor this).

Lemma forEachIterDec_app (front back : list DeclaredIteration.t)
    (result : option string) :
  TemplateProcessor.forEachIterDec this key (front ++ back) result =
  match TemplateProcessor.forEachIterDec this key front result with
  | Threw e => Threw e
  | Ok result' => TemplateProcessor.forEachIterDec this key back result'
  end.
Proof.
  revert result. induction front as [|iterDec front IH]; intros result; simpl;
    [done|].
  case_bool_decide; [|done].
  by destruct (TemplateFunctionsProcessor.invoke _ _).
Qed.

(** Declared iterations whose functions all resolve never throw. *)
Lemma forEachIterDec_resolves (iterDecs : list DeclaredIteration.t)
    (result : option string) :
  Forall (fun iterDec =>
            DeclaredIteration.mappedKey iterDec = key ->
            returned (invoke (DeclaredIteration.mappedFunction iterDec)) = true)
    iterDecs ->
  exists result',
    TemplateProcessor.forEachIterDec this key iterDecs result = Ok result'.
Proof.
  intros Hresolve. revert result.
  induction Hresolve as [|iterDec rest Hfirst _ IH]; intros result; simpl;
    [by eexists|].
  case_bool_decide as Hkey; [|done].
  specialize (Hfirst Hkey). unfold invoke in Hfirst.
  by destruct (TemplateFunctionsProcessor.invoke _ _).
Qed.

End Iterations.

(** X11.  The last declared iteration for a key wins: the [forEach] does
    not stop at the first match, so when several declared iterations carry
    the key of an iterated expression and their functions resolve, the value
    is what the function of the last of them produces. *)
Theorem last_declaration_wins (this : TemplateProcessor.t) (key : string)
    (front back : list DeclaredIteration.t) (iterDec : DeclaredIteration.t)
    (text : string) :
  let invoke :=
    TemplateFunctionsProcessor.invoke
      (TemplateProcessor.tmplFunctionsProcessor this) in
  TemplateContainer.iterDecList (TemplateProcessor.atmplContainer this)
    = front ++ iterDec :: back ->
  DeclaredIteration.mappedKey iterDec = key ->
  Forall (fun later => DeclaredIteration.mappedKey later <> key) back ->
  Forall (fun earlier =>
            DeclaredIteration.mappedKey earlier = key ->
            returned (invoke (DeclaredIteration.mappedFunction earlier)) = true)
    front ->
  invoke (DeclaredIteration.mappedFunction iterDec) = Ok text ->
  TemplateProcessor.retrieveValueFromIterDec this key = Ok (Some text).
Proof.
  intros invoke Hlist Hkey Hback Hfront Hinvoke.
  unfold TemplateProcessor.retrieveValueFromIterDec.
  rewrite Hlist, forEachIterDec_app.
  destruct (forEachIterDec_resolves this key front None Hfront) as [result ->].
  simpl. rewrite bool_decide_eq_true_2 by done.
  fold invoke. rewrite Hinvoke.
  by apply forEachIterDec_no_match.
Qed.

Lemma last_declaration_wins_witness :
  TemplateProcessor.retrieveValueFromIterDec
    (MoreExamples.processor MoreExamples.twice) "rows" = Ok (Some "LALALA").
Proof.
  apply (last_declaration_wins (MoreExamples.processor MoreExamples.twice) "rows"
           [{| DeclaredIteration.mappedKey := "rows";
               DeclaredIteration.mappedFunction := "header" |}] []
           {| DeclaredIteration.mappedKey := "rows";
              DeclaredIteration.mappedFunction := "doOther" |} "LALALA").
  - reflexivity.
  - reflexivity.
  - apply Forall_nil_2.
  - apply Forall_cons. split; [reflexivity | apply Forall_nil_2].
  - reflexivity.
Defined.

(** X12.  A declared iteration whose function fails ends the lookup with
    that error, even when a later declared iteration for the same key would
    have produced a value: the declared iterations after the failing one are
    not looked at. *)
Theorem declared_iteration_failure_aborts (this : TemplateProcessor.t)
    (key : string) (front back : list DeclaredIteration.t)
    (iterDec : DeclaredIteration.t) (e : Error) :
  let invoke :=
    TemplateFunctionsProcessor.invoke
      (TemplateProcessor.tmplFunctionsProcessor this) in
  TemplateContainer.iterDecList (TemplateProcessor.atmplContainer this)
    = front ++ iterDec :: back ->
  DeclaredIteration.mappedKey iterDec = key ->
  Forall (fun earlier =>
            DeclaredIteration.mappedKey earlier = key ->
            returned (invoke (DeclaredIteration.mappedFunction earlier)) = true)
    front ->
  invoke (DeclaredIteration.mappedFunction iterDec) = Threw e ->
  TemplateProcessor.retrieveValueFromIterDec this key = Threw e.
Proof.
  intros invoke Hlist Hkey Hfront Hinvoke.
  unfold TemplateProcessor.retrieveValueFromIterDec.
  rewrite Hlist, forEachIterDec_app.
  destruct (forEachIterDec_resolves this key front None Hfront) as [result ->].
  simpl. rewrite bool_decide_eq_true_2 by done.
  fold invoke. by rewrite Hinvoke.
Qed.

Lemma declared_iteration_failure_aborts_witness :
  TemplateProcessor.retrieveValueFromIterDec
    (MoreExamples.processor MoreExamples.stumbling) "rows"
  = Threw (FunctionNotFound "missing").
Proof.
  apply (declared_iteration_failure_aborts
           (MoreExamples.processor MoreExamples.stumbling) "rows" []
           [{| DeclaredIteration.mappedKey := "rows";
               DeclaredIteration.mappedFunction := "doOther" |}]
           {| DeclaredIteration.mappedKey := "rows";
              DeclaredIteration.mappedFunction := "missing" |}
           (FunctionNotFound "missing")).
  - reflexivity.
  - reflexivity.
  - apply Forall_nil_2.
  - reflexivity.
Defined.

(** ** The text around the placeholders *)

Section Around.
Context {env : Environment}.

Lemma substringFrom_0 (s : string) : Js.substringFrom s 0 = s.
Proof. by destruct s. Qed.

Lemma substringFrom_substringFrom (s : string) (a n : nat) :
  Js.substringFrom (Js.substringFrom s a) n = Js.substringFrom s (a + n).
Proof.
  revert a. induction s as [|ch s IH]; intros [|a]; simpl; try done.
  by destruct n.
Qed.

Lemma substringFrom_split (s : string) (a b : nat) :
  a <= b ->
  Js.substringFrom s a = Js.substring s a b +:+ Js.substringFrom s b.
Proof.
  intros Hab. unfold Js.substring.
  replace (Js.substringFrom s b)
    with (Js.substringFrom (Js.substringFrom s a) (b - a))
    by (rewrite substringFrom_substringFrom; f_equal; lia).
  by rewrite substringTo_substringFrom.
Qed.

Lemma substring_split (s : string) (a b c : nat) :
  a <= b -> b <= c ->
  Js.substring s a c = Js.substring s a b +:+ Js.substring s b c.
Proof.
  intros Hab Hbc. unfold Js.substring.
  rewrite <-(substringTo_substring (Js.substringFrom s a) (b - a) (c - a)) by lia.
  unfold Js.substring. rewrite substringFrom_substringFrom.
  by replace (a + (b - a)) with b by lia;
    replace (c - a - (b - a)) with (c - b) by lia.
Qed.

(** A splice over chained ranges copies the original up to the first range
    and from the end of the last range on. *)
Lemma splice_frame (original : string) (limit : nat)
    (edits : list (MappedExpression.t * SinglePass.Edit)) :
  forall (position : nat) (first final : MappedExpression.t),
    chained position limit edits.*1 ->
    head edits.*1 = Some first ->
    last edits.*1 = Some final ->
    exists middle,
      SinglePass.splice original position edits =
      Js.substring original position (MappedExpression.startIndex first)
      +:+ middle
      +:+ Js.substringFrom original (MappedExpression.endIndex final).
Proof.
  induction edits as [|[mapExpr edit] rest IH]; intros position first final;
    [done|].
  intros (Hposition & Hstart & Hstop & Hrest) [= <-] Hlast.
  simpl in Hposition, Hstart, Hstop.
  destruct rest as [|[next edit'] rest].
  - injection Hlast as <-. destruct edit as [|replacement]; simpl.
    + exists (Js.substring original (MappedExpression.startIndex mapExpr)
                (MappedExpression.endIndex mapExpr)).
      rewrite (substringFrom_split original position
                 (MappedExpression.startIndex mapExpr)) by done.
      by rewrite (substringFrom_split original
                    (MappedExpression.startIndex mapExpr)
                    (MappedExpression.endIndex mapExpr)) by done.
    + by eexists.
  - pose proof Hrest as (Hnext & _). simpl in Hnext.
    destruct edit as [|replacement].
    + destruct (IH position next final) as [middle Hsplice];
        [|done|exact Hlast|].
      { apply (chained_weaken _ (MappedExpression.endIndex mapExpr));
          [lia | exact Hrest]. }
      change (SinglePass.splice original position
                ((mapExpr, SinglePass.Keep) :: (next, edit') :: rest))
        with (SinglePass.splice original position ((next, edit') :: rest)).
      rewrite Hsplice.
      exists (Js.substring original (MappedExpression.startIndex mapExpr)
                (MappedExpression.startIndex next) +:+ middle).
      rewrite (substring_split original position
                 (MappedExpression.startIndex mapExpr)
                 (MappedExpression.startIndex next)) by lia.
      by rewrite !app_assoc.
    + destruct (IH (MappedExpression.endIndex mapExpr) next final)
        as [middle Hsplice]; [done|done|exact Hlast|].
      change (SinglePass.splice original position
                ((mapExpr, SinglePass.Rewrite replacement) :: (next, edit') :: rest))
        with (Js.substring original position (MappedExpression.startIndex mapExpr)
              +:+ default undefinedText replacement
              +:+ SinglePass.splice original (MappedExpression.endIndex mapExpr)
                    ((next, edit') :: rest)).
      rewrite Hsplice.
      exists (default undefinedText replacement
              +:+ Js.substring original (MappedExpression.endIndex mapExpr)
                    (MappedExpression.startIndex next)
              +:+ middle).
      by rewrite !app_assoc.
Qed.

End Around.

(** X13.  A run never touches the text around the placeholders: for
    records in ascending order with disjoint ranges, the returned text is,
    before the cleanup of declared-iteration markers, the template text up to
    the first record's range, followed by some text, followed by the template
    text from the end of the last record's range on. *)
Theorem text_around_placeholders_kept {env : Environment}
    (this : TemplateProcessor.t) (map : gmap string string)
    (first final : MappedExpression.t) (text : string) :
  let container := TemplateProcessor.atmplContainer this in
  let original := TemplateContainer.fileContents container in
  let exprs := TemplateContainer.mapExprList container in
  TemplateContainer.skip container = false ->
  ascendingDisjoint (String.length original) exprs = true ->
  head exprs = Some first ->
  last exprs = Some final ->
  TemplateProcessor.completion (TemplateProcessor.run this map) = Ok text ->
  exists middle,
    text =
    removeIterDec
      (Js.substringTo original (MappedExpression.startIndex first)
       +:+ middle
       +:+ Js.substringFrom original (MappedExpression.endIndex final)).
Proof.
  intros container original exprs Hskip Hranges Hfirst Hfinal Hreturned.
  destruct (TemplateContainer.invalid container) eqn:Hinvalid.
  { unfold TemplateProcessor.run in Hreturned. fold container in Hreturned.
    by rewrite Hskip, Hinvalid in Hreturned. }
  destruct (decide (map = ∅)) as [->|Hmap].
  { unfold TemplateProcessor.run in Hreturned. fold container in Hreturned.
    rewrite Hskip, Hinvalid in Hreturned.
    by rewrite bool_decide_eq_true_2 in Hreturned by apply map_size_empty. }
  rewrite run_past_guards in Hreturned by done. fold container exprs in Hreturned.
  destruct (SinglePass.resolveAll this map (reverse exprs))
    as [warnings [edits|e]] eqn:Hresolve; simplify_eq/=.
  assert (Hrecords : (reverse edits).*1 = exprs).
  { by rewrite fmap_reverse, (resolveAll_records _ _ _ _ _ Hresolve),
      reverse_involutive. }
  assert (Hchained : chained 0 (String.length original) (reverse edits).*1).
  { rewrite Hrecords. apply ascendingDisjoint_chained; [done|].
    apply Forall_forall. intros; lia. }
  fold original. rewrite (applyDescending_splice _ _ 0) by done.
  destruct (splice_frame original (String.length original) (reverse edits)
              0 first final)
    as [middle ->]; [done | by rewrite Hrecords..|].
  exists middle. f_equal. unfold Js.substring.
  rewrite substringFrom_0, Nat.sub_0_r.
  by destruct original.
Qed.

Lemma text_around_placeholders_kept_witness :
  exists middle,
    "Hello Ada, you are 37!" =
    Js.substringTo "Hello &{name}, you are &{age}!" 6
    +:+ middle +:+ Js.substringFrom "Hello &{name}, you are &{age}!" 29.
Proof.
  apply (text_around_placeholders_kept (env := Examples.environment)
           (Examples.processor (Examples.greeting false false))
           Examples.adaLovelace
           (Examples.plain "name" false 6 13) (Examples.plain "age" false 23 29)
           "Hello Ada, you are 37!").
  - reflexivity.
  - reflexivity.
  - reflexivity.
  - reflexivity.
  - reflexivity.
Defined.

(** ** Returning and throwing *)

Section Returning.
Context {env : Environment}.
Variable this : TemplateProcessor.t.
Variable map : gmap string string.

Lemma resolveAll_returned (visited : list MappedExpression.t) :
  returned (SinglePass.resolveAll this map visited).2 = true <->
  Forall (fun mapExpr => resolves this map mapExpr = true) visited.
Proof.
  induction visited as [|mapExpr rest IH]; simpl; [done|].
  rewrite Forall_cons. unfold resolves at 1.
  destruct (SinglePass.replacementFor this map mapExpr) as [ws [edit|e]]; simpl.
  - rewrite <-IH.
    destruct (SinglePass.resolveAll this map rest) as [ws' [edits|e]]; simpl;
      (split; [by intros ? | by intros [_ ?]]).
  - split; [done | by intros [? _]].
Qed.

End Returning.

(** X14.  Past the guards a run returns a string exactly when every record
    of the template resolves: warnings never stop it, and one record that
    throws is enough to leave the caller without a string. *)
Theorem run_returns_iff {env : Environment}
    (this : TemplateProcessor.t) (map : gmap string string) :
  let container := TemplateProcessor.atmplContainer this in
  TemplateContainer.skip container = false ->
  TemplateContainer.invalid container = false ->
  map <> ∅ ->
  (returned (TemplateProcessor.completion (TemplateProcessor.run this map)) = true
   <-> forall mapExpr working,
         mapExpr ∈ TemplateContainer.mapExprList container ->
         returned (TemplateProcessor.processExpr this map mapExpr working).2 = true).
Proof.
  intros container Hskip Hinvalid Hmap.
  rewrite run_past_guards by done. fold container.
  transitivity
    (returned
       (SinglePass.resolveAll this map
          (reverse (TemplateContainer.mapExprList container))).2 = true).
  { by destruct (SinglePass.resolveAll _ _ _) as [warnings [edits|e]]. }
  rewrite resolveAll_returned, Forall_reverse, Forall_forall.
  assert (Hsame : forall mapExpr working,
            returned (TemplateProcessor.processExpr this map mapExpr working).2
            = resolves this map mapExpr).
  { intros mapExpr working. unfold resolves.
    rewrite processExpr_replacementFor.
    by destruct (SinglePass.replacementFor this map mapExpr) as [ws [edit|e]]. }
  split.
  - intros Hall mapExpr working Hin. rewrite Hsame. by apply Hall.
  - intros Hall mapExpr Hin. rewrite <-(Hsame mapExpr ""). by apply Hall.
Qed.

Lemma run_returns_iff_witness :
  returned
    (TemplateProcessor.completion
       (TemplateProcessor.run (env := Examples.environment)
          (Examples.processor (Examples.greeting false false))
          {[ "city" := "London" ]})) = true
  <-> forall mapExpr working,
        mapExpr ∈ TemplateContainer.mapExprList (Examples.greeting false false) ->
        returned
          (TemplateProcessor.processExpr (env := Examples.environment)
             (Examples.processor (Examples.greeting false false))
             {[ "city" := "London" ]} mapExpr working).2 = true.
Proof.
  apply (run_returns_iff (env := Examples.environment)
           (Examples.processor (Examples.greeting false false))
           {[ "city" := "London" ]}).
  - reflexivity.
  - reflexivity.
  - apply map_non_empty_singleton.
Defined.

(** X15.  [evaluateBoolean] and the ternary of [run] do not test the same
    thing.  For a key whose value is not empty and is neither ["true"] nor
    ["1"] in any casing, [evaluateBoolean] on a plain expression for the key
    answers [false], while a ternary record for the same key takes its true
    branch. *)
Theorem ternary_and_boolean_differ {env : Environment}
    (this : TemplateProcessor.t) (map : gmap string string)
    (expression : string) (expr : MappedExpression.t)
    (index : nat) (mapExpr : MappedExpression.t) (value : string) :
  let exprs :=
    TemplateContainer.mapExprList (TemplateProcessor.atmplContainer this) in
  let start := MappedExpression.startIndex mapExpr in
  let stop := MappedExpression.endIndex mapExpr in
  execMappedExpression expression = Some expr ->
  MappedExpression.isNegated expr = false ->
  MappedExpression.mappedKey expr = MappedExpression.mappedKey mapExpr ->
  exprs !! index = Some mapExpr ->
  isPlain mapExpr = true ->
  MappedExpression.isTernary mapExpr = true ->
  MappedExpression.pipeFunctions mapExpr = None ->
  map !! MappedExpression.mappedKey mapExpr = Some value ->
  value <> "" ->
  Js.toLowerCase value <> "true" ->
  Js.toLowerCase value <> "1" ->
  TemplateProcessor.evaluateBoolean expression map = Ok false
  /\ forall logged working,
       TemplateProcessor.runLoop this map (S index) logged working =
       TemplateProcessor.runLoop this map index logged
         (Js.substringTo working start
          +:+ MappedExpression.ternaryTrue mapExpr
          +:+ Js.substringFrom working stop).
Proof.
  intros exprs start stop Hexec Hplainly Hkey Hlookup Hplain Hternary Hpipes
    Hvalue Hfull Hnot_true Hnot_one.
  split.
  - unfold TemplateProcessor.evaluateBoolean, TemplateProcessor.isTrueText.
    rewrite Hexec, Hkey, Hvalue, Hplainly. simpl.
    by rewrite !bool_decide_eq_false_2 by done.
  - intros logged working.
    rewrite (runLoop_step this map index mapExpr) by done.
    unfold isPlain in Hplain. apply andb_true_iff in Hplain as [Hiter Hparam].
    apply negb_true_iff in Hiter, Hparam.
    unfold TemplateProcessor.processExpr.
    rewrite Hiter, Hparam, Hvalue, Hternary, Hpipes.
    rewrite bool_decide_eq_false_2 by done. simpl.
    by rewrite app_nil_r.
Qed.

Lemma ternary_and_boolean_differ_witness :
  TemplateProcessor.evaluateBoolean (env := Examples.environment) "flag"
    {[ "flag" := "no" ]} = Ok false
  /\ forall logged working,
       TemplateProcessor.runLoop (env := Examples.environment)
         (Examples.processor MoreExamples.toggle) {[ "flag" := "no" ]} 1
         logged working =
       TemplateProcessor.runLoop (env := Examples.environment)
         (Examples.processor MoreExamples.toggle) {[ "flag" := "no" ]} 0
         logged
         (Js.substringTo working 6 +:+ "on" +:+ Js.substringFrom working 24).
Proof.
  apply (ternary_and_boolean_differ (env := Examples.environment)
           (Examples.processor MoreExamples.toggle) {[ "flag" := "no" ]}
           "flag" (Examples.expression "flag" false) 0
           MoreExamples.toggleRecord "no").
  - reflexivity.
  - reflexivity.
  - reflexivity.
  - reflexivity.
  - reflexivity.
  - reflexivity.
  - reflexivity.
  - reflexivity.
  - discriminate.
  - discriminate.
  - discriminate.
Defined.
